(** * OpenStack infrastructure: Terraformer chart values and status

    A shallow embedding of [pkg/internal/infrastructure/terraform.go]:
    the computation of the values handed to the Terraformer chart, the
    extraction of the Terraform output variables into a [TerraformState],
    and the mapping of that state to an [InfrastructureStatus]. *)

From stdpp Require Import gmap strings list fin_maps.
From Stdlib Require Import Strings.Byte.

Open Scope string_scope.

(** ** Go values *)

(** A Go [error] is an interface value; the only thing the code under study
    does with one is to compare it with [nil] and hand it on.  An error is
    carried here by its message, and a possibly-nil error is an [option]. *)
Definition error := string.

(** The outcome of running a Go function: it returns, or the goroutine
    panics (here: on a nil pointer dereference). *)
Inductive outcome (A : Type) : Type :=
| Returned (a : A)
| Panicked.
Arguments Returned {A} a.
Arguments Panicked {A}.

(** A Go result pair [(T, error)] where [T] is a pointer or a map:
    both components may be nil. *)
Definition result (A : Type) : Type := (option A * option error)%type.

(** [interface{}] as it occurs in chart values: strings, booleans, string
    slices and nested [map[string]interface{}]. *)
#[warnings="-register-all"] Inductive Value : Type :=
| VString (s : string)
| VBool (b : bool)
| VStrings (l : list string)
| VMap (m : gmap string Value).

Abbreviation Values := (gmap string Value).

(** [m[k]] on a [map[string]string]: the zero value when the key is absent
    (also on a nil map, which reads like the empty one). *)
Definition index (m : gmap string string) (k : string) : string :=
  default "" (m !! k).

(** [m[k1][k2]...] on chart values. *)
Fixpoint lookupPath (path : list string) (v : Value) : option Value :=
  match path with
  | [] => Some v
  | k :: rest =>
      match v with
      | VMap m => match m !! k with
                  | Some v' => lookupPath rest v'
                  | None => None
                  end
      | _ => None
      end
  end.

(** The string leaves of a one-level map of chart values. *)
Definition stringValues (v : Value) : list string :=
  match v with
  | VMap m => omap (λ kv, match kv.2 with VString s => Some s | _ => None end)
                   (map_to_list m)
  | _ => []
  end.

(** ** Constants (terraform.go, lines 32-51) *)

Definition TerraformerPurpose : string := "infra".
Definition TerraformOutputKeySSHKeyName : string := "key_name".
Definition TerraformOutputKeyRouterID : string := "router_id".
Definition TerraformOutputKeyNetworkID : string := "network_id".
Definition TerraformOutputKeySecurityGroupID : string := "security_group_id".
Definition TerraformOutputKeySecurityGroupName : string := "security_group_name".
Definition TerraformOutputKeyFloatingNetworkID : string := "floating_network_id".
Definition TerraformOutputKeySubnetID : string := "subnet_id".
Definition DefaultRouterID : string := "${openstack_networking_router_v2.router.id}".

(** ** API types

    Pointer parameters of the functions below are never nil at their call
    sites and are represented by the record they point to; an optional
    pointer field ([Networks.Router]) and a returned pointer are [option]s.
    Field names carry the name of their struct. *)

(** [api.Router], [api.Networks], [api.InfrastructureConfig]: the fields
    read by this file. *)
Record Router : Type := { Router_ID : string }.

Record Networks : Type := {
  Networks_Router : option Router;
  Networks_Worker : string;
  Networks_Workers : string
}.

Record InfrastructureConfig : Type := {
  InfrastructureConfig_FloatingPoolName : string;
  InfrastructureConfig_Networks : Networks
}.

(** [api.KeyStoneURL], [api.CloudProfileConfig]. *)
Record KeyStoneURL : Type := {
  KeyStoneURL_Region : string;
  KeyStoneURL_URL : string
}.

Record CloudProfileConfig : Type := {
  CloudProfileConfig_KeyStoneURLs : list KeyStoneURL;
  CloudProfileConfig_KeyStoneURL : string;
  CloudProfileConfig_DNSServers : list string
}.

(** [internal.Credentials]. *)
Record Credentials : Type := {
  Credentials_DomainName : string;
  Credentials_TenantName : string
}.

(** [extensionsv1alpha1.Infrastructure]: namespace, region and SSH public
    key ([[]byte]). *)
Record InfrastructureSpec : Type := {
  InfrastructureSpec_Region : string;
  InfrastructureSpec_SSHPublicKey : list byte
}.

Record Infrastructure : Type := {
  Infrastructure_Namespace : string;
  Infrastructure_Spec : InfrastructureSpec
}.

(** [metav1.TypeMeta] and the status types of [apiv1alpha1]. *)
Record TypeMeta : Type := {
  TypeMeta_APIVersion : string;
  TypeMeta_Kind : string
}.

Definition Purpose := string.

(** Modelled from the spec: the constant [apiv1alpha1.PurposeNodes], which
    is declared in package [apiv1alpha1] and not in terraform.go; the status
    schema gives its value as the purpose tag "nodes". *)
Definition PurposeNodes : Purpose := "nodes".

Record FloatingPoolStatus : Type := {
  FloatingPoolStatus_ID : string;
  FloatingPoolStatus_Name : string
}.

Record RouterStatus : Type := { RouterStatus_ID : string }.

Record Subnet : Type := {
  Subnet_Purpose : Purpose;
  Subnet_ID : string
}.

Record NetworkStatus : Type := {
  NetworkStatus_ID : string;
  NetworkStatus_FloatingPool : FloatingPoolStatus;
  NetworkStatus_Router : RouterStatus;
  NetworkStatus_Subnets : list Subnet
}.

Record SecurityGroup : Type := {
  SecurityGroup_Purpose : Purpose;
  SecurityGroup_ID : string;
  SecurityGroup_Name : string
}.

Record NodeStatus : Type := { NodeStatus_KeyName : string }.

Record InfrastructureStatus : Type := {
  InfrastructureStatus_TypeMeta : TypeMeta;
  InfrastructureStatus_Networks : NetworkStatus;
  InfrastructureStatus_SecurityGroups : list SecurityGroup;
  InfrastructureStatus_Node : NodeStatus
}.

(** [status.Networks.FloatingPool.Name = name] *)
Definition setFloatingPoolName (status : InfrastructureStatus) (name : string)
  : InfrastructureStatus :=
  let networks := InfrastructureStatus_Networks status in
  let pool := NetworkStatus_FloatingPool networks in
  {| InfrastructureStatus_TypeMeta := InfrastructureStatus_TypeMeta status;
     InfrastructureStatus_Networks :=
       {| NetworkStatus_ID := NetworkStatus_ID networks;
          NetworkStatus_FloatingPool :=
            {| FloatingPoolStatus_ID := FloatingPoolStatus_ID pool;
               FloatingPoolStatus_Name := name |};
          NetworkStatus_Router := NetworkStatus_Router networks;
          NetworkStatus_Subnets := NetworkStatus_Subnets networks |};
     InfrastructureStatus_SecurityGroups :=
       InfrastructureStatus_SecurityGroups status;
     InfrastructureStatus_Node := InfrastructureStatus_Node status |}.

(** [TerraformState] (terraform.go, lines 162-178). *)
Record TerraformState : Type := {
  SSHKeyName : string;
  RouterID : string;
  NetworkID : string;
  SubnetID : string;
  FloatingNetworkID : string;
  SecurityGroupID : string;
  SecurityGroupName : string
}.

(** [terraformer.Terraformer], as far as this file uses the interface: the
    batch fetch of output variables, returning [(map[string]string, error)]. *)
Class Terraformer (T : Type) : Type := {
  GetStateOutputVariables : T → list string → gmap string string * option error
}.

(** ** The functions of terraform.go *)

Section Infrastructure.

(** What terraform.go imports from other packages: the string of
    [apiv1alpha1.SchemeGroupVersion], the cluster type of [controller], and
    the two functions of [helper].  The functions below are defined, and
    their properties proved, for any such values. *)
Variable SchemeGroupVersion : string.
Context {Cluster : Type}.
Variable CloudProfileConfigFromCluster : Cluster → result CloudProfileConfig.
Variable FindKeyStoneURL :
  list KeyStoneURL → string → string → string * option error.

(** [StatusTypeMeta] (lines 58-62). *)
Definition StatusTypeMeta : TypeMeta :=
  {| TypeMeta_APIVersion := SchemeGroupVersion;
     TypeMeta_Kind := "InfrastructureStatus" |}.

(** [ComputeTerraformerChartValues] (lines 66-128). *)
Definition ComputeTerraformerChartValues
    (infra : Infrastructure) (credentials : Credentials)
    (config : InfrastructureConfig) (cluster : Cluster)
  : outcome (result Values) :=
  let '(createRouter, routerID) :=
    match Networks_Router (InfrastructureConfig_Networks config) with
    | Some router => (false, Router_ID router)
    | None => (true, DefaultRouterID)
    end in
  let '(cloudProfileConfig, err) := CloudProfileConfigFromCluster cluster in
  match err with
  | Some e => Returned (None, Some e)
  | None =>
  match cloudProfileConfig with
  | None => Panicked (* cloudProfileConfig.KeyStoneURLs on a nil pointer *)
  | Some cloudProfileConfig =>
  let '(keyStoneURL, err) :=
    FindKeyStoneURL (CloudProfileConfig_KeyStoneURLs cloudProfileConfig)
                    (CloudProfileConfig_KeyStoneURL cloudProfileConfig)
                    (InfrastructureSpec_Region (Infrastructure_Spec infra)) in
  match err with
  | Some e => Returned (None, Some e)
  | None =>
  let workersCIDR := Networks_Workers (InfrastructureConfig_Networks config) in
  let workersCIDR :=
    if decide (workersCIDR = "")
    then Networks_Worker (InfrastructureConfig_Networks config)
    else workersCIDR in
  Returned (Some
    {[ "openstack" := VMap
         {[ "authURL" := VString keyStoneURL;
            "domainName" := VString (Credentials_DomainName credentials);
            "tenantName" := VString (Credentials_TenantName credentials);
            "region" :=
              VString (InfrastructureSpec_Region (Infrastructure_Spec infra));
            "floatingPoolName" :=
              VString (InfrastructureConfig_FloatingPoolName config) ]};
       "create" := VMap {[ "router" := VBool createRouter ]};
       "dnsServers" :=
         VStrings (CloudProfileConfig_DNSServers cloudProfileConfig);
       "sshPublicKey" :=
         VString (String.string_of_list_byte
                    (InfrastructureSpec_SSHPublicKey (Infrastructure_Spec infra)));
       "router" := VMap {[ "id" := VString routerID ]};
       "clusterName" := VString (Infrastructure_Namespace infra);
       "networks" := VMap {[ "workers" := VString workersCIDR ]};
       "outputKeys" := VMap
         {[ "routerID" := VString TerraformOutputKeyRouterID;
            "networkID" := VString TerraformOutputKeyNetworkID;
            "keyName" := VString TerraformOutputKeySSHKeyName;
            "securityGroupID" := VString TerraformOutputKeySecurityGroupID;
            "securityGroupName" := VString TerraformOutputKeySecurityGroupName;
            "floatingNetworkID" := VString TerraformOutputKeyFloatingNetworkID;
            "subnetID" := VString TerraformOutputKeySubnetID ]} ]},
    None)
  end end end.

(** The local [outputKeys] of [ExtractTerraformState] (lines 182-190). *)
Definition outputKeys : list string :=
  [ TerraformOutputKeySSHKeyName;
    TerraformOutputKeyRouterID;
    TerraformOutputKeyNetworkID;
    TerraformOutputKeySubnetID;
    TerraformOutputKeyFloatingNetworkID;
    TerraformOutputKeySecurityGroupID;
    TerraformOutputKeySecurityGroupName ].

(** [ExtractTerraformState] (lines 181-207). *)
Definition ExtractTerraformState `{Terraformer T}
    (tf : T) (config : InfrastructureConfig) : result TerraformState :=
  let '(vars, err) := GetStateOutputVariables tf outputKeys in
  match err with
  | Some e => (None, Some e)
  | None =>
      (Some {| SSHKeyName := index vars TerraformOutputKeySSHKeyName;
               RouterID := index vars TerraformOutputKeyRouterID;
               NetworkID := index vars TerraformOutputKeyNetworkID;
               SubnetID := index vars TerraformOutputKeySubnetID;
               FloatingNetworkID := index vars TerraformOutputKeyFloatingNetworkID;
               SecurityGroupID := index vars TerraformOutputKeySecurityGroupID;
               SecurityGroupName := index vars TerraformOutputKeySecurityGroupName |},
       None)
  end.

(** [StatusFromTerraformState] (lines 211-247). *)
Definition StatusFromTerraformState (state : TerraformState)
  : InfrastructureStatus :=
  {| InfrastructureStatus_TypeMeta :=
       {| TypeMeta_APIVersion := SchemeGroupVersion;
          TypeMeta_Kind := "InfrastructureStatus" |};
     InfrastructureStatus_Networks :=
       {| NetworkStatus_ID := NetworkID state;
          NetworkStatus_FloatingPool :=
            {| FloatingPoolStatus_ID := FloatingNetworkID state;
               FloatingPoolStatus_Name := "" |};
          NetworkStatus_Router := {| RouterStatus_ID := RouterID state |};
          NetworkStatus_Subnets :=
            [ {| Subnet_Purpose := PurposeNodes;
                 Subnet_ID := SubnetID state |} ] |};
     InfrastructureStatus_SecurityGroups :=
       [ {| SecurityGroup_Purpose := PurposeNodes;
            SecurityGroup_ID := SecurityGroupID state;
            SecurityGroup_Name := SecurityGroupName state |} ];
     InfrastructureStatus_Node := {| NodeStatus_KeyName := SSHKeyName state |} |}.

(** [ComputeStatus] (lines 250-259). *)
Definition ComputeStatus `{Terraformer T}
    (tf : T) (config : InfrastructureConfig)
  : outcome (result InfrastructureStatus) :=
  let '(state, err) := ExtractTerraformState tf config in
  match err with
  | Some e => Returned (None, Some e)
  | None =>
      match state with
      | None => Panicked (* StatusFromTerraformState reads through state *)
      | Some state =>
          let status := StatusFromTerraformState state in
          let status :=
            setFloatingPoolName status
              (InfrastructureConfig_FloatingPoolName config) in
          Returned (Some status, None)
      end
  end.

End Infrastructure.

(** ** The same functions on arguments that may be nil

    The functions above take the records their pointer parameters point to.
    Here the parameters are the pointers themselves, [None] for nil, and a
    field read through a nil pointer, or a method call on a nil interface,
    panics where the code has it. *)

Module Ptr.

Section Infrastructure.

Variable SchemeGroupVersion : string.
Context {Cluster : Type}.
Variable CloudProfileConfigFromCluster : Cluster → result CloudProfileConfig.
Variable FindKeyStoneURL :
  list KeyStoneURL → string → string → string * option error.

(** [ComputeTerraformerChartValues] (lines 66-128). *)
Definition ComputeTerraformerChartValues
    (infra : option Infrastructure) (credentials : option Credentials)
    (config : option InfrastructureConfig) (cluster : Cluster)
  : outcome (result Values) :=
  match config with
  | None => Panicked (* config.Networks, line 77 *)
  | Some config =>
  let '(createRouter, routerID) :=
    match Networks_Router (InfrastructureConfig_Networks config) with
    | Some router => (false, Router_ID router)
    | None => (true, DefaultRouterID)
    end in
  let '(cloudProfileConfig, err) := CloudProfileConfigFromCluster cluster in
  match err with
  | Some e => Returned (None, Some e)
  | None =>
  match cloudProfileConfig with
  | None => Panicked (* cloudProfileConfig.KeyStoneURLs, line 87 *)
  | Some cloudProfileConfig =>
  match infra with
  | None => Panicked (* infra.Spec, line 87 *)
  | Some infra =>
  let '(keyStoneURL, err) :=
    FindKeyStoneURL (CloudProfileConfig_KeyStoneURLs cloudProfileConfig)
                    (CloudProfileConfig_KeyStoneURL cloudProfileConfig)
                    (InfrastructureSpec_Region (Infrastructure_Spec infra)) in
  match err with
  | Some e => Returned (None, Some e)
  | None =>
  let workersCIDR := Networks_Workers (InfrastructureConfig_Networks config) in
  let workersCIDR :=
    if decide (workersCIDR = "")
    then Networks_Worker (InfrastructureConfig_Networks config)
    else workersCIDR in
  match credentials with
  | None => Panicked (* credentials.DomainName, line 101 *)
  | Some credentials =>
  Returned (Some
    {[ "openstack" := VMap
         {[ "authURL" := VString keyStoneURL;
            "domainName" := VString (Credentials_DomainName credentials);
            "tenantName" := VString (Credentials_TenantName credentials);
            "region" :=
              VString (InfrastructureSpec_Region (Infrastructure_Spec infra));
            "floatingPoolName" :=
              VString (InfrastructureConfig_FloatingPoolName config) ]};
       "create" := VMap {[ "router" := VBool createRouter ]};
       "dnsServers" :=
         VStrings (CloudProfileConfig_DNSServers cloudProfileConfig);
       "sshPublicKey" :=
         VString (String.string_of_list_byte
                    (InfrastructureSpec_SSHPublicKey (Infrastructure_Spec infra)));
       "router" := VMap {[ "id" := VString routerID ]};
       "clusterName" := VString (Infrastructure_Namespace infra);
       "networks" := VMap {[ "workers" := VString workersCIDR ]};
       "outputKeys" := VMap
         {[ "routerID" := VString TerraformOutputKeyRouterID;
            "networkID" := VString TerraformOutputKeyNetworkID;
            "keyName" := VString TerraformOutputKeySSHKeyName;
            "securityGroupID" := VString TerraformOutputKeySecurityGroupID;
            "securityGroupName" := VString TerraformOutputKeySecurityGroupName;
            "floatingNetworkID" := VString TerraformOutputKeyFloatingNetworkID;
            "subnetID" := VString TerraformOutputKeySubnetID ]} ]},
    None)
  end end end end end end.

(** [ExtractTerraformState] (lines 181-207): [tf] is an interface value, and
    [config] is not read. *)
Definition ExtractTerraformState `{Terraformer T}
    (tf : option T) (config : option InfrastructureConfig)
  : outcome (result TerraformState) :=
  match tf with
  | None => Panicked (* tf.GetStateOutputVariables, line 192 *)
  | Some tf =>
  let '(vars, err) := GetStateOutputVariables tf outputKeys in
  match err with
  | Some e => Returned (None, Some e)
  | None =>
      Returned
        (Some {| SSHKeyName := index vars TerraformOutputKeySSHKeyName;
                 RouterID := index vars TerraformOutputKeyRouterID;
                 NetworkID := index vars TerraformOutputKeyNetworkID;
                 SubnetID := index vars TerraformOutputKeySubnetID;
                 FloatingNetworkID :=
                   index vars TerraformOutputKeyFloatingNetworkID;
                 SecurityGroupID := index vars TerraformOutputKeySecurityGroupID;
                 SecurityGroupName :=
                   index vars TerraformOutputKeySecurityGroupName |},
         None)
  end end.

(** [ComputeStatus] (lines 250-259). *)
Definition ComputeStatus `{Terraformer T}
    (tf : option T) (config : option InfrastructureConfig)
  : outcome (result InfrastructureStatus) :=
  match ExtractTerraformState tf config with
  | Panicked => Panicked
  | Returned (state, err) =>
  match err with
  | Some e => Returned (None, Some e)
  | None =>
  match state with
  | None => Panicked (* StatusFromTerraformState reads through state *)
  | Some state =>
  let status := StatusFromTerraformState SchemeGroupVersion state in
  match config with
  | None => Panicked (* config.FloatingPoolName, line 257 *)
  | Some config =>
  let status :=
    setFloatingPoolName status (InfrastructureConfig_FloatingPoolName config) in
  Returned (Some status, None)
  end end end end.

End Infrastructure.

End Ptr.

(** ** Rendering the chart (terraform.go, lines 53-57 and 130-160) *)

(** [TerraformFiles] (lines 155-160). *)
Record TerraformFiles : Type := {
  Main : string;
  Variables : string;
  TFVars : list byte
}.

(** [*chartrenderer.RenderedChart], as far as this file uses it: the
    content of a file of the release, by name. *)
Class RenderedChart (C : Type) : Type := {
  FileContent : C → string → string
}.

(** [chartrenderer.Interface]: [Render(chartPath, releaseName, namespace,
    values)] returns a [*RenderedChart] and an [error].  The values are handed
    over as an [interface{}] holding the map, which may be nil. *)
Class ChartRenderer (R C : Type) : Type := {
  Render : R → string → string → string → option Values → C * option error
}.

Section Rendering.

(** [filepath.Join] of the standard library, whose separator depends on the
    operating system. *)
Variable filepath_Join : list string → string.
Context {Cluster : Type}.
Variable CloudProfileConfigFromCluster : Cluster → result CloudProfileConfig.
Variable FindKeyStoneURL :
  list KeyStoneURL → string → string → string * option error.

(** [ChartsPath] and [InternalChartsPath] (lines 54-57). *)
Definition ChartsPath : string :=
  filepath_Join ["controllers"; "provider-openstack"; "charts"].

Definition InternalChartsPath : string :=
  filepath_Join [ChartsPath; "internal"].

(** [RenderTerraformerChart] (lines 131-153). *)
Definition RenderTerraformerChart `{ChartRenderer R C, RenderedChart C}
    (renderer : R) (infra : Infrastructure) (credentials : Credentials)
    (config : InfrastructureConfig) (cluster : Cluster)
  : outcome (result TerraformFiles) :=
  match ComputeTerraformerChartValues CloudProfileConfigFromCluster
          FindKeyStoneURL infra credentials config cluster with
  | Panicked => Panicked
  | Returned (values, err) =>
  match err with
  | Some e => Returned (None, Some e)
  | None =>
  let '(release, err) :=
    Render renderer (filepath_Join [InternalChartsPath; "openstack-infra"])
           "openstack-infra" (Infrastructure_Namespace infra) values in
  match err with
  | Some e => Returned (None, Some e)
  | None =>
      Returned (Some {| Main := FileContent release "main.tf";
                        Variables := FileContent release "variables.tf";
                        TFVars := String.list_byte_of_string
                                    (FileContent release "terraform.tfvars") |},
                None)
  end end end.

End Rendering.

(** ** Decoding provider configurations (package [validator]) *)

Module validator.

(** [core.ProviderConfig] and [gardencorev1beta1.ProviderConfig]: a raw
    extension, of which the decoders read the bytes. *)
Record ProviderConfig : Type := { Raw : list byte }.

(** [util.Decode(decoder, data, into)] for an [into] that points to an
    object of type [A]: it fills the object, as its type has it, and returns
    an error.  Here it returns the object as it leaves it, too. *)
Class Decodable (Decoder A : Type) : Type := {
  Decode : Decoder → list byte → A → A * option error
}.

Section Decoders.

(** The decoder, the field path and the control plane configuration with its
    zero value [&openstack.ControlPlaneConfig{}] belong to other packages, and
    so does [util.Decode], with one way of decoding for each of the three
    types of object that this file has it fill. *)
Context {Decoder Path ControlPlaneConfig : Type}.
Context `{!Decodable Decoder ControlPlaneConfig,
          !Decodable Decoder InfrastructureConfig,
          !Decodable Decoder CloudProfileConfig}.
Variable zeroControlPlaneConfig : ControlPlaneConfig.

(** [&openstack.InfrastructureConfig{}] and [&openstack.CloudProfileConfig{}]. *)
Definition zeroInfrastructureConfig : InfrastructureConfig :=
  {| InfrastructureConfig_FloatingPoolName := "";
     InfrastructureConfig_Networks :=
       {| Networks_Router := None;
          Networks_Worker := "";
          Networks_Workers := "" |} |}.

Definition zeroCloudProfileConfig : CloudProfileConfig :=
  {| CloudProfileConfig_KeyStoneURLs := [];
     CloudProfileConfig_KeyStoneURL := "";
     CloudProfileConfig_DNSServers := [] |}.

(** [decodeControlPlaneConfig] (lines 27-34). *)
Definition decodeControlPlaneConfig (decoder : Decoder) (cp : ProviderConfig)
    (fldPath : Path) : result ControlPlaneConfig :=
  let controlPlaneConfig := zeroControlPlaneConfig in
  let '(controlPlaneConfig, err) :=
    Decode decoder (Raw cp) controlPlaneConfig in
  match err with
  | Some e => (None, Some e)
  | None => (Some controlPlaneConfig, None)
  end.

(** [decodeInfrastructureConfig] (lines 36-43). *)
Definition decodeInfrastructureConfig (decoder : Decoder)
    (infra : ProviderConfig) (fldPath : Path) : result InfrastructureConfig :=
  let infraConfig := zeroInfrastructureConfig in
  let '(infraConfig, err) := Decode decoder (Raw infra) infraConfig in
  match err with
  | Some e => (None, Some e)
  | None => (Some infraConfig, None)
  end.

(** [decodeCloudProfileConfig] (lines 45-52). *)
Definition decodeCloudProfileConfig (decoder : Decoder)
    (config : ProviderConfig) (fldPath : Path) : result CloudProfileConfig :=
  let cloudProfileConfig := zeroCloudProfileConfig in
  let '(cloudProfileConfig, err) :=
    Decode decoder (Raw config) cloudProfileConfig in
  match err with
  | Some e => (None, Some e)
  | None => (Some cloudProfileConfig, None)
  end.

End Decoders.

End validator.

(** ** Stand-ins for the collaborators *)

Module helper.

(** Modelled from the spec: [helper.FindKeyStoneURL], which lives in package
    [helper] and not in terraform.go.  Look the region up in the table; if it
    is present return its URL; else if the fallback is non-empty return the
    fallback; else fail with a [ConfigResolutionError]. *)
Fixpoint FindKeyStoneURL (keyStoneURLs : list KeyStoneURL)
    (keystoneURL region : string) : string * option error :=
  match keyStoneURLs with
  | keyStoneURL :: rest =>
      if decide (KeyStoneURL_Region keyStoneURL = region)
      then (KeyStoneURL_URL keyStoneURL, None)
      else FindKeyStoneURL rest keystoneURL region
  | [] =>
      if decide (keystoneURL = "")
      then ("", Some "ConfigResolutionError")
      else (keystoneURL, None)
  end.

End helper.

(** A cluster given by what its cloud profile decodes to, with the decoder
    that hands this out. *)
Definition decodedCluster : Type := result CloudProfileConfig.

Definition decodeCluster (cluster : decodedCluster)
  : result CloudProfileConfig := cluster.

(** Two output stores: one that holds a set of outputs and answers a batch
    fetch with the requested keys it has, and one whose fetch fails. *)
Inductive backend : Type :=
| Store (outputs : gmap string string)
| Unreachable (e : error).

#[global] Instance backend_terraformer : Terraformer backend := {
  GetStateOutputVariables tf keys :=
    match tf with
    | Store outputs => (filter (λ kv, kv.1 ∈ keys) outputs, None)
    | Unreachable e => (∅, Some e)
    end
}.

(** An output store that judges what it is asked: a batch fetch for keys
    that it accepts is answered, with no outputs, and any other fails. *)
Inductive probe : Type :=
| Probe (accepts : list string → bool).

#[global] Instance probe_terraformer : Terraformer probe := {
  GetStateOutputVariables tf keys :=
    match tf with
    | Probe accepts =>
        if accepts keys then (∅, None) else (∅, Some "unexpected keys")
    end
}.

(** A decoder that takes the data for a name: it writes the name into the
    object (the floating pool name, the fallback endpoint, or a control
    plane configuration that is a name), and then rejects a name of more
    than eight bytes. *)
Inductive nameDecoder : Type :=
| NameDecoder.

Definition nameError (data : list byte) : option error :=
  if decide (List.length data ≤ 8)%nat then None else Some "name too long".

#[global] Instance name_infrastructure_config
  : validator.Decodable nameDecoder InfrastructureConfig := {
  Decode decoder data into :=
    ({| InfrastructureConfig_FloatingPoolName := String.string_of_list_byte data;
        InfrastructureConfig_Networks := InfrastructureConfig_Networks into |},
     nameError data)
}.

#[global] Instance name_cloud_profile_config
  : validator.Decodable nameDecoder CloudProfileConfig := {
  Decode decoder data into :=
    ({| CloudProfileConfig_KeyStoneURLs := CloudProfileConfig_KeyStoneURLs into;
        CloudProfileConfig_KeyStoneURL := String.string_of_list_byte data;
        CloudProfileConfig_DNSServers := CloudProfileConfig_DNSServers into |},
     nameError data)
}.

#[global] Instance name_control_plane_config
  : validator.Decodable nameDecoder string := {
  Decode decoder data into := (String.string_of_list_byte data, nameError data)
}.

(** Inputs used to run the functions. *)
Definition exampleProfile : CloudProfileConfig :=
  {| CloudProfileConfig_KeyStoneURLs :=
       [ {| KeyStoneURL_Region := "eu"; KeyStoneURL_URL := "https://eu.example" |} ];
     CloudProfileConfig_KeyStoneURL := "https://fallback.example";
     CloudProfileConfig_DNSServers := ["10.0.0.53"] |}.

Definition exampleInfra : Infrastructure :=
  {| Infrastructure_Namespace := "shoot-1";
     Infrastructure_Spec :=
       {| InfrastructureSpec_Region := "eu";
          InfrastructureSpec_SSHPublicKey := [x73; x73; x68] |} |}.

Definition exampleCredentials : Credentials :=
  {| Credentials_DomainName := "domain"; Credentials_TenantName := "tenant" |}.

Definition exampleConfig (router : option Router) (workers worker : string)
  : InfrastructureConfig :=
  {| InfrastructureConfig_FloatingPoolName := "ext-net";
     InfrastructureConfig_Networks :=
       {| Networks_Router := router;
          Networks_Worker := worker;
          Networks_Workers := workers |} |}.

Definition exampleVersion : string :=
  "openstack.provider.extensions.gardener.cloud/v1alpha1".

(** A profile with no endpoint for any region. *)
Definition emptyProfile : CloudProfileConfig :=
  {| CloudProfileConfig_KeyStoneURLs := [];
     CloudProfileConfig_KeyStoneURL := "";
     CloudProfileConfig_DNSServers := [] |}.

(** The chart values expected for [exampleInfra], [exampleCredentials],
    [exampleProfile] and the configuration given by the arguments. *)
Definition exampleValues (createRouter : bool) (routerID workers : string)
  : Values :=
  {[ "openstack" := VMap
       {[ "authURL" := VString "https://eu.example";
          "domainName" := VString "domain";
          "tenantName" := VString "tenant";
          "region" := VString "eu";
          "floatingPoolName" := VString "ext-net" ]};
     "create" := VMap {[ "router" := VBool createRouter ]};
     "dnsServers" := VStrings ["10.0.0.53"];
     "sshPublicKey" := VString "ssh";
     "router" := VMap {[ "id" := VString routerID ]};
     "clusterName" := VString "shoot-1";
     "networks" := VMap {[ "workers" := VString workers ]};
     "outputKeys" := VMap
       {[ "routerID" := VString "router_id";
          "networkID" := VString "network_id";
          "keyName" := VString "key_name";
          "securityGroupID" := VString "security_group_id";
          "securityGroupName" := VString "security_group_name";
          "floatingNetworkID" := VString "floating_network_id";
          "subnetID" := VString "subnet_id" ]} ]}.

(** An output store with all seven outputs and one more, and one with the
    floating network only. *)
Definition exampleOutputs : gmap string string :=
  {[ "key_name" := "shoot-1-key";
     "router_id" := "r-1";
     "network_id" := "n-1";
     "subnet_id" := "s-1";
     "floating_network_id" := "net-123";
     "security_group_id" := "sg-1";
     "security_group_name" := "shoot-1-sg";
     "unrelated" := "x" ]}.

Definition sparseOutputs : gmap string string :=
  {[ "floating_network_id" := "net-123" ]}.

Definition sparseState : TerraformState :=
  {| SSHKeyName := ""; RouterID := ""; NetworkID := ""; SubnetID := "";
     FloatingNetworkID := "net-123";
     SecurityGroupID := ""; SecurityGroupName := "" |}.

Definition exampleState : TerraformState :=
  {| SSHKeyName := "shoot-1-key";
     RouterID := "r-1";
     NetworkID := "n-1";
     SubnetID := "s-1";
     FloatingNetworkID := "net-123";
     SecurityGroupID := "sg-1";
     SecurityGroupName := "shoot-1-sg" |}.

Definition exampleStatus : InfrastructureStatus :=
  {| InfrastructureStatus_TypeMeta :=
       {| TypeMeta_APIVersion := exampleVersion;
          TypeMeta_Kind := "InfrastructureStatus" |};
     InfrastructureStatus_Networks :=
       {| NetworkStatus_ID := "n-1";
          NetworkStatus_FloatingPool :=
            {| FloatingPoolStatus_ID := "net-123";
               FloatingPoolStatus_Name := "ext-net" |};
          NetworkStatus_Router := {| RouterStatus_ID := "r-1" |};
          NetworkStatus_Subnets :=
            [ {| Subnet_Purpose := "nodes"; Subnet_ID := "s-1" |} ] |};
     InfrastructureStatus_SecurityGroups :=
       [ {| SecurityGroup_Purpose := "nodes";
            SecurityGroup_ID := "sg-1";
            SecurityGroup_Name := "shoot-1-sg" |} ];
     InfrastructureStatus_Node := {| NodeStatus_KeyName := "shoot-1-key" |} |}.

(** A release given by its files, where a file that is not there reads as
    the empty string; a renderer that writes the chart path, the release
    name and the namespace it is called with into the three files, and one
    that fails; the renderer [TemplatesIn] serves one namespace only. *)
#[global] Instance files_release : RenderedChart (list (string * string)) := {
  FileContent release name :=
    match list_find (λ file, file.1 = name) release with
    | Some (_, file) => file.2
    | None => ""
    end
}.

Inductive chartRenderer : Type :=
| Templates
| TemplatesIn (namespace : string)
| BrokenChart (e : error).

#[global] Instance chartRenderer_renderer
  : ChartRenderer chartRenderer (list (string * string)) := {
  Render renderer chartPath releaseName namespace values :=
    match renderer with
    | Templates =>
        ([ ("main.tf", chartPath);
           ("variables.tf", releaseName);
           ("terraform.tfvars", namespace) ], None)
    | TemplatesIn known =>
        if decide (namespace = known)
        then ([ ("main.tf", chartPath);
                ("variables.tf", releaseName);
                ("terraform.tfvars", namespace) ], None)
        else ([], Some "unknown namespace")
    | BrokenChart e => ([], Some e)
    end
}.

(** [filepath.Join] on path elements that need no cleaning, on Unix. *)
Definition unixJoin (elements : list string) : string :=
  String.concat "/" elements.

(** The map that holds the seven outputs of a state under their keys. *)
Definition stateOutputs (state : TerraformState) : gmap string string :=
  {[ TerraformOutputKeySSHKeyName := SSHKeyName state;
     TerraformOutputKeyRouterID := RouterID state;
     TerraformOutputKeyNetworkID := NetworkID state;
     TerraformOutputKeySubnetID := SubnetID state;
     TerraformOutputKeyFloatingNetworkID := FloatingNetworkID state;
     TerraformOutputKeySecurityGroupID := SecurityGroupID state;
     TerraformOutputKeySecurityGroupName := SecurityGroupName state ]}.

(** The keys of a map of chart values. *)
Definition keysOf (v : Value) : gset string :=
  match v with
  | VMap m => dom m
  | _ => ∅
  end.

(** [ComputeTerraformerChartValues] run with the stand-ins on the example
    infrastructure and credentials. *)
Abbreviation exampleChartValues :=
  (ComputeTerraformerChartValues decodeCluster helper.FindKeyStoneURL
     exampleInfra exampleCredentials).

(** [RenderTerraformerChart] run with the stand-ins on the example
    infrastructure and credentials, and the chart path it renders. *)
Abbreviation exampleRender renderer :=
  (RenderTerraformerChart unixJoin decodeCluster helper.FindKeyStoneURL
     renderer exampleInfra exampleCredentials).

Definition exampleChartPath : string :=
  "controllers/provider-openstack/charts/internal/openstack-infra".

(** The files that [Templates] renders for the example infrastructure. *)
Definition exampleFiles : TerraformFiles :=
  {| Main := exampleChartPath;
     Variables := "openstack-infra";
     TFVars := String.list_byte_of_string "shoot-1" |}.

(** A provider configuration with a name as its raw bytes, and the
    infrastructure configuration that [NameDecoder] makes of it. *)
Definition namedProviderConfig (name : string) : validator.ProviderConfig :=
  {| validator.Raw := String.list_byte_of_string name |}.

Definition namedInfrastructureConfig (name : string) : InfrastructureConfig :=
  {| InfrastructureConfig_FloatingPoolName := name;
     InfrastructureConfig_Networks :=
       {| Networks_Router := None;
          Networks_Worker := "";
          Networks_Workers := "" |} |}.

(** ** Properties *)

Section Properties.

Variable SchemeGroupVersion : string.
Context {Cluster : Type}.
Variable CloudProfileConfigFromCluster : Cluster → result CloudProfileConfig.
Variable FindKeyStoneURL :
  list KeyStoneURL → string → string → string * option error.

Local Abbreviation chartValues :=
  (ComputeTerraformerChartValues CloudProfileConfigFromCluster FindKeyStoneURL).

(** Follow [ComputeTerraformerChartValues] down to the [return] it takes. *)
Ltac chart_values_paths :=
  unfold ComputeTerraformerChartValues;
  repeat match goal with
  | |- context [CloudProfileConfigFromCluster ?c] =>
      destruct (CloudProfileConfigFromCluster c) as [[?cpc|] [?e|]] eqn:?
  | |- context [FindKeyStoneURL ?t ?f ?r] =>
      destruct (FindKeyStoneURL t f r) as [?url [?e|]] eqn:?
  | |- context [Networks_Router ?n] =>
      destruct (Networks_Router n) as [?router|] eqn:?
  end.

(** The function returns chart values exactly when the cloud profile decodes
    and the endpoint resolves. *)
Lemma ComputeTerraformerChartValues_returns infra credentials config cluster
    cloudProfileConfig keyStoneURL :
  CloudProfileConfigFromCluster cluster = (Some cloudProfileConfig, None) →
  FindKeyStoneURL (CloudProfileConfig_KeyStoneURLs cloudProfileConfig)
                  (CloudProfileConfig_KeyStoneURL cloudProfileConfig)
                  (InfrastructureSpec_Region (Infrastructure_Spec infra))
    = (keyStoneURL, None) →
  ∃ values, chartValues infra credentials config cluster
            = Returned (Some values, None).
Proof.
  intros Hdecode Hfind. unfold ComputeTerraformerChartValues.
  rewrite Hdecode, Hfind.
  destruct (Networks_Router _); eauto.
Qed.

Lemma ComputeTerraformerChartValues_values_inv infra credentials config cluster
    values err :
  chartValues infra credentials config cluster = Returned (Some values, err) →
  err = None ∧
  ∃ cloudProfileConfig keyStoneURL,
    CloudProfileConfigFromCluster cluster = (Some cloudProfileConfig, None) ∧
    FindKeyStoneURL (CloudProfileConfig_KeyStoneURLs cloudProfileConfig)
                    (CloudProfileConfig_KeyStoneURL cloudProfileConfig)
                    (InfrastructureSpec_Region (Infrastructure_Spec infra))
      = (keyStoneURL, None).
Proof.
  chart_values_paths; intros [= <- <-] || intros [=]; eauto.
Qed.

(** What [ExtractTerraformState] returns is fixed by the answer to the one
    batch fetch it makes, for the keys of [outputKeys]. *)
Lemma ExtractTerraformState_fetch `{Terraformer T1, Terraformer T2}
    (tf1 : T1) (tf2 : T2) config1 config2 :
  GetStateOutputVariables tf1 outputKeys = GetStateOutputVariables tf2 outputKeys →
  ExtractTerraformState tf1 config1 = ExtractTerraformState tf2 config2.
Proof. unfold ExtractTerraformState. by intros ->. Qed.

Lemma ExtractTerraformState_ok `{Terraformer T} (tf : T) config vars :
  GetStateOutputVariables tf outputKeys = (vars, None) →
  ExtractTerraformState tf config =
    (Some {| SSHKeyName := index vars "key_name";
             RouterID := index vars "router_id";
             NetworkID := index vars "network_id";
             SubnetID := index vars "subnet_id";
             FloatingNetworkID := index vars "floating_network_id";
             SecurityGroupID := index vars "security_group_id";
             SecurityGroupName := index vars "security_group_name" |}, None).
Proof. unfold ExtractTerraformState. by intros ->. Qed.

Lemma ExtractTerraformState_error `{Terraformer T} (tf : T) config vars e :
  GetStateOutputVariables tf outputKeys = (vars, Some e) →
  ExtractTerraformState tf config = (None, Some e).
Proof. unfold ExtractTerraformState. by intros ->. Qed.

(** A state and an error are never returned together, nor both left nil. *)
Lemma ExtractTerraformState_result `{Terraformer T} (tf : T) config state err :
  ExtractTerraformState tf config = (state, err) →
  (is_Some state ∧ err = None) ∨ (state = None ∧ is_Some err).
Proof.
  unfold ExtractTerraformState.
  destruct (GetStateOutputVariables tf outputKeys) as [vars [e|]];
    intros [= <- <-]; eauto.
Qed.

(** [ComputeStatus] never panics: it is only handed a state when there is
    one. *)
Lemma ComputeStatus_returns `{Terraformer T} (tf : T) config :
  ∃ r, ComputeStatus SchemeGroupVersion tf config = Returned r.
Proof.
  unfold ComputeStatus.
  destruct (ExtractTerraformState tf config) as [state err] eqn:Hstate.
  apply ExtractTerraformState_result in Hstate
    as [[[st ->] ->] | [-> [e ->]]]; eauto.
Qed.

(** Against a probe, [ExtractTerraformState] succeeds exactly when the probe
    accepts the keys of [outputKeys]: those are the keys it asks for. *)
Lemma ExtractTerraformState_probe accepts config :
  (ExtractTerraformState (Probe accepts) config).2 = None ↔
  accepts outputKeys = true.
Proof.
  unfold ExtractTerraformState.
  cbn [GetStateOutputVariables probe_terraformer].
  by destruct (accepts outputKeys).
Qed.

(** C1. The output-key wire contract: the seven key constants are the
    literal strings [key_name], [router_id], [network_id],
    [security_group_id], [security_group_name], [floating_network_id] and
    [subnet_id]; and the keys that [ExtractTerraformState] asks the output
    store for are, as a set and even counted with multiplicity, the values
    that [ComputeTerraformerChartValues] puts into the [outputKeys] sub-map
    of the chart values it returns.  What the extractor asks for is seen
    from the store's side: a store that answers only the requests it accepts
    lets the extraction succeed exactly when it accepts the list
    [outputKeys], and a store that accepts a request by the set of its keys
    lets it succeed exactly when that set is the set of the values of the
    sub-map. *)
Theorem output_key_contract infra credentials config cluster values err :
  chartValues infra credentials config cluster = Returned (Some values, err) →
  (TerraformOutputKeySSHKeyName = "key_name" ∧
   TerraformOutputKeyRouterID = "router_id" ∧
   TerraformOutputKeyNetworkID = "network_id" ∧
   TerraformOutputKeySecurityGroupID = "security_group_id" ∧
   TerraformOutputKeySecurityGroupName = "security_group_name" ∧
   TerraformOutputKeyFloatingNetworkID = "floating_network_id" ∧
   TerraformOutputKeySubnetID = "subnet_id") ∧
  (∀ `{Terraformer T1, Terraformer T2} (tf1 : T1) (tf2 : T2) c,
     GetStateOutputVariables tf1 outputKeys
       = GetStateOutputVariables tf2 outputKeys →
     ExtractTerraformState tf1 c = ExtractTerraformState tf2 c) ∧
  (∀ accepts c,
     (ExtractTerraformState (Probe accepts) c).2 = None ↔
     accepts outputKeys = true) ∧
  ∃ keys : gmap string Value,
    values !! "outputKeys" = Some (VMap keys) ∧
    size keys = length outputKeys ∧
    stringValues (VMap keys) ≡ₚ outputKeys ∧
    list_to_set (stringValues (VMap keys)) =@{gset string}
      list_to_set outputKeys ∧
    (∀ (wanted : gset string) c,
       (ExtractTerraformState
          (Probe (λ asked, bool_decide (list_to_set asked = wanted))) c).2
         = None ↔
       wanted = list_to_set (stringValues (VMap keys))).
Proof.
  intros Hret. split; [by repeat split|].
  split; [intros; by apply ExtractTerraformState_fetch|].
  split; [apply ExtractTerraformState_probe|]. revert Hret.
  chart_values_paths; intros [= <- <-] || intros [=];
    (eexists; split; [reflexivity|]);
    (split; [by vm_compute|]);
    (split; [by apply (bool_decide_unpack _); vm_compute|]);
    match goal with
    | |- ?values_set = ?asked_set ∧ _ =>
        assert (values_set = asked_set) as Hset
          by (by apply (bool_decide_unpack _); vm_compute)
    end;
    (split; [exact Hset|]);
    intros wanted c; rewrite ExtractTerraformState_probe, Hset;
    rewrite bool_decide_eq_true; split; congruence.
Qed.

(** C2. [StatusFromTerraformState] copies each of the seven strings of the
    state, unchanged, into its status field: the network id, the router id,
    the floating pool id, the node key name, one subnet with purpose
    "nodes" and the subnet id, and one security group with purpose "nodes",
    the security group id and the security group name. *)
Theorem status_from_state_verbatim (state : TerraformState) :
  let status := StatusFromTerraformState SchemeGroupVersion state in
  let networks := InfrastructureStatus_Networks status in
  NetworkStatus_ID networks = NetworkID state ∧
  RouterStatus_ID (NetworkStatus_Router networks) = RouterID state ∧
  FloatingPoolStatus_ID (NetworkStatus_FloatingPool networks)
    = FloatingNetworkID state ∧
  NodeStatus_KeyName (InfrastructureStatus_Node status) = SSHKeyName state ∧
  NetworkStatus_Subnets networks
    = [ {| Subnet_Purpose := "nodes"; Subnet_ID := SubnetID state |} ] ∧
  InfrastructureStatus_SecurityGroups status
    = [ {| SecurityGroup_Purpose := "nodes";
           SecurityGroup_ID := SecurityGroupID state;
           SecurityGroup_Name := SecurityGroupName state |} ].
Proof. destruct state. cbn. by repeat split. Qed.

(** C3. On the success path of [ComputeStatus], when [ExtractTerraformState]
    yields a state, a status is returned whose floating pool has the id of
    the extracted state's floating network and the name of the
    configuration's floating pool. *)
Theorem compute_status_floating_pool `{Terraformer T} (tf : T) config state :
  ExtractTerraformState tf config = (Some state, None) →
  ∃ status,
    ComputeStatus SchemeGroupVersion tf config = Returned (Some status, None) ∧
    NetworkStatus_FloatingPool (InfrastructureStatus_Networks status)
      = {| FloatingPoolStatus_ID := FloatingNetworkID state;
           FloatingPoolStatus_Name :=
             InfrastructureConfig_FloatingPoolName config |}.
Proof.
  intros Hstate. unfold ComputeStatus. rewrite Hstate.
  eexists. split; reflexivity.
Qed.

(** C6. All or nothing.  A cloud profile decode error, and after a good
    decode an endpoint resolution error, makes
    [ComputeTerraformerChartValues] return that error and nil values; a
    failed batch fetch makes [ExtractTerraformState] and [ComputeStatus]
    return that error and a nil state or status; and whatever any of the
    three returns, a result never comes with an error. *)
Theorem all_or_nothing :
  (∀ infra credentials config cluster cloudProfileConfig e,
     CloudProfileConfigFromCluster cluster = (cloudProfileConfig, Some e) →
     chartValues infra credentials config cluster
       = Returned (None, Some e)) ∧
  (∀ infra credentials config cluster cloudProfileConfig keyStoneURL e,
     CloudProfileConfigFromCluster cluster = (Some cloudProfileConfig, None) →
     FindKeyStoneURL (CloudProfileConfig_KeyStoneURLs cloudProfileConfig)
                     (CloudProfileConfig_KeyStoneURL cloudProfileConfig)
                     (InfrastructureSpec_Region (Infrastructure_Spec infra))
       = (keyStoneURL, Some e) →
     chartValues infra credentials config cluster
       = Returned (None, Some e)) ∧
  (∀ `{Terraformer T} (tf : T) config vars e,
     GetStateOutputVariables tf outputKeys = (vars, Some e) →
     ExtractTerraformState tf config = (None, Some e) ∧
     ComputeStatus SchemeGroupVersion tf config = Returned (None, Some e)) ∧
  (∀ infra credentials config cluster values err,
     chartValues infra credentials config cluster = Returned (values, err) →
     (is_Some values ∧ err = None) ∨ (values = None ∧ is_Some err)) ∧
  (∀ `{Terraformer T} (tf : T) config state err,
     ExtractTerraformState tf config = (state, err) →
     (is_Some state ∧ err = None) ∨ (state = None ∧ is_Some err)) ∧
  (∀ `{Terraformer T} (tf : T) config status err,
     ComputeStatus SchemeGroupVersion tf config = Returned (status, err) →
     (is_Some status ∧ err = None) ∨ (status = None ∧ is_Some err)).
Proof.
  repeat apply conj.
  - intros * Hdecode. unfold ComputeTerraformerChartValues.
    rewrite Hdecode. by destruct (Networks_Router _).
  - intros * Hdecode Hfind. unfold ComputeTerraformerChartValues.
    rewrite Hdecode, Hfind. by destruct (Networks_Router _).
  - intros * Hfetch. unfold ComputeStatus.
    by rewrite (ExtractTerraformState_error _ _ _ _ Hfetch).
  - intros *. chart_values_paths; intros [= <- <-] || intros [=]; eauto.
  - intros *. apply ExtractTerraformState_result.
  - intros * Hret. unfold ComputeStatus in Hret.
    destruct (ExtractTerraformState tf config) as [state e] eqn:Hstate.
    apply ExtractTerraformState_result in Hstate
      as [[[st ->] ->] | [-> [e' ->]]]; injection Hret as <- <-; eauto.
Qed.

(** C7. Every status built by [StatusFromTerraformState], and so every
    status returned by [ComputeStatus], carries the fixed type metadata:
    kind "InfrastructureStatus" and the scheme group version string as API
    version. *)
Theorem status_type_meta :
  (∀ state,
     let meta := InfrastructureStatus_TypeMeta
                   (StatusFromTerraformState SchemeGroupVersion state) in
     TypeMeta_Kind meta = "InfrastructureStatus" ∧
     TypeMeta_APIVersion meta = SchemeGroupVersion ∧
     meta = StatusTypeMeta SchemeGroupVersion) ∧
  (∀ `{Terraformer T} (tf : T) config status err,
     ComputeStatus SchemeGroupVersion tf config
       = Returned (Some status, err) →
     InfrastructureStatus_TypeMeta status
       = {| TypeMeta_APIVersion := SchemeGroupVersion;
            TypeMeta_Kind := "InfrastructureStatus" |}).
Proof.
  split; [done|].
  intros * Hret. unfold ComputeStatus in Hret.
  destruct (ExtractTerraformState tf config) as [[state|] [e|]];
    by simplify_eq.
Qed.

(** C9. When the batch fetch succeeds, [ExtractTerraformState] succeeds
    too, whichever of the seven keys the returned map lacks, and the field
    of every key that the map lacks is the empty string. *)
Theorem missing_output_keys `{Terraformer T} (tf : T) config vars :
  GetStateOutputVariables tf outputKeys = (vars, None) →
  ∃ state,
    ExtractTerraformState tf config = (Some state, None) ∧
    (vars !! "key_name" = None → SSHKeyName state = "") ∧
    (vars !! "router_id" = None → RouterID state = "") ∧
    (vars !! "network_id" = None → NetworkID state = "") ∧
    (vars !! "subnet_id" = None → SubnetID state = "") ∧
    (vars !! "floating_network_id" = None → FloatingNetworkID state = "") ∧
    (vars !! "security_group_id" = None → SecurityGroupID state = "") ∧
    (vars !! "security_group_name" = None → SecurityGroupName state = "").
Proof.
  intros Hfetch. eexists. split; [by apply ExtractTerraformState_ok|].
  cbn. unfold index. by repeat split; intros ->.
Qed.

(** C10. [ExtractTerraformState] does not look at its configuration: with
    the same accessor, any two configurations give the same result. *)
Theorem extract_ignores_config `{Terraformer T} (tf : T)
    (c1 c2 : InfrastructureConfig) :
  ExtractTerraformState tf c1 = ExtractTerraformState tf c2.
Proof. reflexivity. Qed.

(** C4. Router resolution in [ComputeTerraformerChartValues]: whenever the
    function returns chart values, a configuration without a router yields
    [create.router = true] and [router.id] equal to the placeholder
    [DefaultRouterID], and a configuration with a router yields
    [create.router = false] and [router.id] equal to that router's id. *)
Theorem router_resolution infra credentials config cluster values err :
  chartValues infra credentials config cluster = Returned (Some values, err) →
  DefaultRouterID = "${openstack_networking_router_v2.router.id}" ∧
  (Networks_Router (InfrastructureConfig_Networks config) = None →
     lookupPath ["create"; "router"] (VMap values) = Some (VBool true) ∧
     lookupPath ["router"; "id"] (VMap values)
       = Some (VString DefaultRouterID)) ∧
  (∀ router,
     Networks_Router (InfrastructureConfig_Networks config) = Some router →
     lookupPath ["create"; "router"] (VMap values) = Some (VBool false) ∧
     lookupPath ["router"; "id"] (VMap values)
       = Some (VString (Router_ID router))).
Proof.
  intros Hret. split; [reflexivity|]. revert Hret.
  chart_values_paths; intros [= <- <-] || intros [=];
    (split; [intros [=] | intros ? [=]]); subst; split; reflexivity.
Qed.

(** C5. Workers CIDR in [ComputeTerraformerChartValues]: whenever the
    function returns chart values, [networks.workers] is the primary
    [Workers] field if that is non-empty, whatever the deprecated [Worker]
    field holds; otherwise it is the deprecated [Worker] field; and with
    both empty it is the empty string. *)
Theorem workers_cidr_resolution infra credentials config cluster values err :
  chartValues infra credentials config cluster = Returned (Some values, err) →
  let networks := InfrastructureConfig_Networks config in
  (Networks_Workers networks ≠ "" →
     lookupPath ["networks"; "workers"] (VMap values)
       = Some (VString (Networks_Workers networks))) ∧
  (Networks_Workers networks = "" →
     lookupPath ["networks"; "workers"] (VMap values)
       = Some (VString (Networks_Worker networks))) ∧
  (Networks_Workers networks = "" → Networks_Worker networks = "" →
     lookupPath ["networks"; "workers"] (VMap values) = Some (VString "")).
Proof.
  intros Hret networks. subst networks. revert Hret.
  chart_values_paths; intros [= <- <-] || intros [=];
    (split; [|split]); intros; case_decide; try done; try reflexivity.
  all: match goal with
       | Hempty : Networks_Worker ?n = "" |- _ = Some ?v =>
           replace v with (VString (Networks_Worker n)) by (by rewrite Hempty)
       end; reflexivity.
Qed.

End Properties.

(** ** The functions at work *)

Example chart_values_created_router :
  exampleChartValues (exampleConfig None "" "10.0.0.0/24")
                     (Some exampleProfile, None)
  = Returned (Some (exampleValues true DefaultRouterID "10.0.0.0/24"), None).
Proof. reflexivity. Qed.

Example chart_values_given_router :
  exampleChartValues
    (exampleConfig (Some {| Router_ID := "r-1" |}) "10.1.0.0/16" "10.0.0.0/24")
    (Some exampleProfile, None)
  = Returned (Some (exampleValues false "r-1" "10.1.0.0/16"), None).
Proof. reflexivity. Qed.

Example chart_values_no_provider_config :
  exampleChartValues (exampleConfig None "" "") (None, None) = Panicked.
Proof. reflexivity. Qed.

Example find_keystone_url_region :
  helper.FindKeyStoneURL
    [ {| KeyStoneURL_Region := "eu"; KeyStoneURL_URL := "https://eu.example" |} ]
    "" "eu" = ("https://eu.example", None).
Proof. reflexivity. Qed.

Example find_keystone_url_fallback :
  helper.FindKeyStoneURL
    [ {| KeyStoneURL_Region := "eu"; KeyStoneURL_URL := "https://eu.example" |} ]
    "https://fallback.example" "us" = ("https://fallback.example", None).
Proof. reflexivity. Qed.

Example find_keystone_url_none :
  helper.FindKeyStoneURL [] "" "us" = ("", Some "ConfigResolutionError").
Proof. reflexivity. Qed.

Example extract_example_state :
  ExtractTerraformState (Store exampleOutputs) (exampleConfig None "" "")
  = (Some exampleState, None).
Proof. reflexivity. Qed.

Example compute_example_status :
  ComputeStatus exampleVersion (Store exampleOutputs) (exampleConfig None "" "")
  = Returned (Some exampleStatus, None).
Proof. reflexivity. Qed.

(** ** The theorems at concrete inputs *)

(** The output-key contract on the example configuration without a router. *)
Lemma output_key_contract_witness :
  exampleChartValues (exampleConfig None "" "10.0.0.0/24")
                     (Some exampleProfile, None)
  = Returned (Some (exampleValues true DefaultRouterID "10.0.0.0/24"), None)
  ∧ ∃ keys : gmap string Value,
      exampleValues true DefaultRouterID "10.0.0.0/24" !! "outputKeys"
        = Some (VMap keys) ∧
      stringValues (VMap keys) ≡ₚ outputKeys ∧
      (ExtractTerraformState
         (Probe (λ asked,
            bool_decide (list_to_set asked
                         =@{gset string} list_to_set (stringValues (VMap keys)))))
         (exampleConfig None "" "")).2 = None.
Proof.
  assert (exampleChartValues (exampleConfig None "" "10.0.0.0/24")
                             (Some exampleProfile, None)
          = Returned (Some (exampleValues true DefaultRouterID "10.0.0.0/24"),
                      None)) as Hret by reflexivity.
  split; [exact Hret|].
  destruct (output_key_contract _ _ _ _ _ _ _ _ Hret)
    as (_ & _ & _ & keys & Hkeys & _ & Hperm & _ & Hasked).
  exists keys. split; [exact Hkeys|]. split; [exact Hperm|].
  apply Hasked. reflexivity.
Defined.

(** The floating pool of the status, with floating pool name "ext-net" and
    an output store that holds floating network "net-123". *)
Lemma compute_status_floating_pool_witness :
  ExtractTerraformState (Store sparseOutputs) (exampleConfig None "" "")
  = (Some sparseState, None)
  ∧ ∃ status,
      ComputeStatus exampleVersion (Store sparseOutputs)
                    (exampleConfig None "" "")
        = Returned (Some status, None) ∧
      NetworkStatus_FloatingPool (InfrastructureStatus_Networks status)
        = {| FloatingPoolStatus_ID := "net-123";
             FloatingPoolStatus_Name := "ext-net" |}.
Proof.
  assert (ExtractTerraformState (Store sparseOutputs)
            (exampleConfig None "" "")
          = (Some sparseState, None)) as Hstate by reflexivity.
  split; [exact Hstate|].
  exact (compute_status_floating_pool exampleVersion (Store sparseOutputs)
           (exampleConfig None "" "") sparseState Hstate).
Defined.

(** Router resolution without a router and with router "r-1". *)
Lemma router_resolution_witness :
  (exampleChartValues (exampleConfig None "" "")
                      (Some exampleProfile, None)
   = Returned (Some (exampleValues true DefaultRouterID ""), None)
   ∧ lookupPath ["create"; "router"]
       (VMap (exampleValues true DefaultRouterID "")) = Some (VBool true)
   ∧ lookupPath ["router"; "id"]
       (VMap (exampleValues true DefaultRouterID ""))
     = Some (VString "${openstack_networking_router_v2.router.id}"))
  ∧
  (exampleChartValues (exampleConfig (Some {| Router_ID := "r-1" |}) "" "")
                      (Some exampleProfile, None)
   = Returned (Some (exampleValues false "r-1" ""), None)
   ∧ lookupPath ["create"; "router"] (VMap (exampleValues false "r-1" ""))
     = Some (VBool false)
   ∧ lookupPath ["router"; "id"] (VMap (exampleValues false "r-1" ""))
     = Some (VString "r-1")).
Proof.
  split.
  - assert (exampleChartValues (exampleConfig None "" "")
                               (Some exampleProfile, None)
            = Returned (Some (exampleValues true DefaultRouterID ""), None))
      as Hret by reflexivity.
    split; [exact Hret|].
    destruct (router_resolution _ _ _ _ _ _ _ _ Hret) as (_ & Hcreate & _).
    apply Hcreate. reflexivity.
  - assert (exampleChartValues
              (exampleConfig (Some {| Router_ID := "r-1" |}) "" "")
              (Some exampleProfile, None)
            = Returned (Some (exampleValues false "r-1" ""), None))
      as Hret by reflexivity.
    split; [exact Hret|].
    destruct (router_resolution _ _ _ _ _ _ _ _ Hret) as (_ & _ & Hgiven).
    apply (Hgiven {| Router_ID := "r-1" |}). reflexivity.
Defined.

(** Workers CIDR resolution with only the deprecated field set. *)
Lemma workers_cidr_resolution_witness :
  exampleChartValues (exampleConfig None "" "10.0.0.0/24")
                     (Some exampleProfile, None)
  = Returned (Some (exampleValues true DefaultRouterID "10.0.0.0/24"), None)
  ∧ lookupPath ["networks"; "workers"]
      (VMap (exampleValues true DefaultRouterID "10.0.0.0/24"))
    = Some (VString "10.0.0.0/24").
Proof.
  assert (exampleChartValues (exampleConfig None "" "10.0.0.0/24")
                             (Some exampleProfile, None)
          = Returned (Some (exampleValues true DefaultRouterID "10.0.0.0/24"),
                      None)) as Hret by reflexivity.
  split; [exact Hret|].
  destruct (workers_cidr_resolution _ _ _ _ _ _ _ _ Hret) as (_ & Hold & _).
  apply Hold. reflexivity.
Defined.

(** Error returns on a cloud profile that fails to decode, on a profile
    without any endpoint, and on an unreachable backend. *)
Lemma all_or_nothing_witness :
  exampleChartValues (exampleConfig None "" "") (None, Some "decode failed")
    = Returned (None, Some "decode failed")
  ∧ exampleChartValues (exampleConfig None "" "") (Some emptyProfile, None)
    = Returned (None, Some "ConfigResolutionError")
  ∧ ExtractTerraformState (Unreachable "no backend") (exampleConfig None "" "")
    = (None, Some "no backend")
  ∧ ComputeStatus exampleVersion (Unreachable "no backend")
      (exampleConfig None "" "")
    = Returned (None, Some "no backend").
Proof.
  destruct (all_or_nothing exampleVersion decodeCluster helper.FindKeyStoneURL)
    as (Hdecode & Hfind & Hfetch & _).
  split; [|split].
  - apply (Hdecode _ _ _ _ None). reflexivity.
  - apply (Hfind _ _ _ _ emptyProfile ""); reflexivity.
  - apply (Hfetch _ _ (Unreachable "no backend") _ ∅). reflexivity.
Defined.

(** The type metadata of the status computed from the example outputs. *)
Lemma status_type_meta_witness :
  ComputeStatus exampleVersion (Store exampleOutputs) (exampleConfig None "" "")
  = Returned (Some exampleStatus, None)
  ∧ InfrastructureStatus_TypeMeta exampleStatus
    = {| TypeMeta_APIVersion :=
           "openstack.provider.extensions.gardener.cloud/v1alpha1";
         TypeMeta_Kind := "InfrastructureStatus" |}.
Proof.
  assert (ComputeStatus exampleVersion (Store exampleOutputs)
            (exampleConfig None "" "")
          = Returned (Some exampleStatus, None)) as Hret by reflexivity.
  split; [exact Hret|].
  exact (proj2 (status_type_meta exampleVersion) _ _ _ _ _ _ Hret).
Defined.

(** Extraction from a store that holds one of the seven outputs. *)
Lemma missing_output_keys_witness :
  GetStateOutputVariables (Store sparseOutputs) outputKeys
    = (sparseOutputs, None)
  ∧ ∃ state,
      ExtractTerraformState (Store sparseOutputs) (exampleConfig None "" "")
        = (Some state, None) ∧
      SSHKeyName state = "" ∧ SecurityGroupName state = "".
Proof.
  assert (GetStateOutputVariables (Store sparseOutputs) outputKeys
          = (sparseOutputs, None)) as Hfetch by reflexivity.
  split; [exact Hfetch|].
  destruct (missing_output_keys (Store sparseOutputs)
              (exampleConfig None "" "") sparseOutputs Hfetch)
    as (state & Hstate & Hkey & _ & _ & _ & _ & _ & Hname).
  exists state. split; [exact Hstate|].
  split; [apply Hkey | apply Hname]; reflexivity.
Defined.

(** ** Further properties of the chart values *)

Section ChartValuesProperties.

Context {Cluster : Type}.
Variable CloudProfileConfigFromCluster : Cluster → result CloudProfileConfig.
Variable FindKeyStoneURL :
  list KeyStoneURL → string → string → string * option error.

(** The endpoint lookup that [ComputeTerraformerChartValues] makes. *)
Local Abbreviation resolved infra cloudProfileConfig :=
  (FindKeyStoneURL (CloudProfileConfig_KeyStoneURLs cloudProfileConfig)
                   (CloudProfileConfig_KeyStoneURL cloudProfileConfig)
                   (InfrastructureSpec_Region (Infrastructure_Spec infra))).

Ltac chart_values_cases :=
  unfold ComputeTerraformerChartValues;
  repeat match goal with
  | |- context [CloudProfileConfigFromCluster ?c] =>
      destruct (CloudProfileConfigFromCluster c) as [[?cpc|] [?e|]] eqn:?
  | |- context [FindKeyStoneURL ?t ?f ?r] =>
      destruct (FindKeyStoneURL t f r) as [?url [?e|]] eqn:?
  | |- context [Networks_Router ?n] =>
      destruct (Networks_Router n) as [?router|] eqn:?
  end.

(** On pointers that are not nil, the function on pointers is the function
    on the records. *)
Lemma Ptr_ComputeTerraformerChartValues_some infra credentials config cluster :
  Ptr.ComputeTerraformerChartValues CloudProfileConfigFromCluster
    FindKeyStoneURL (Some infra) (Some credentials) (Some config) cluster
  = ComputeTerraformerChartValues CloudProfileConfigFromCluster
      FindKeyStoneURL infra credentials config cluster.
Proof.
  unfold Ptr.ComputeTerraformerChartValues, ComputeTerraformerChartValues.
  destruct (Networks_Router _);
    destruct (CloudProfileConfigFromCluster cluster) as [[cpc|] [e|]];
    try done;
    by destruct (FindKeyStoneURL _ _ _) as [url [e|]].
Qed.

(** X1. The three ways [ComputeTerraformerChartValues] can end, on pointers
    that may be nil.  It panics exactly when [config] is nil, or the decoder
    returns no error and then the cloud profile or [infra] is nil, or the
    endpoint lookup succeeds and [credentials] is nil.  It returns an error
    with nil values exactly when [config] is not nil and the decoder returns
    that error, or [infra] is not nil either, the decoder returns a profile
    and no error, and the endpoint lookup returns that error: a decode error
    wins whatever the lookup would say, and either error is returned with
    nil credentials too.  It returns values exactly when the three pointers
    are not nil and both helpers succeed; and on pointers that are not nil
    it is the function on the records they point to. *)
Theorem chart_values_outcomes
    (infra : option Infrastructure) (credentials : option Credentials)
    (config : option InfrastructureConfig) (cluster : Cluster) :
  let decoded := CloudProfileConfigFromCluster cluster in
  (Ptr.ComputeTerraformerChartValues CloudProfileConfigFromCluster
     FindKeyStoneURL infra credentials config cluster = Panicked ↔
     config = None ∨
     (decoded.2 = None ∧
      (decoded.1 = None ∨ infra = None ∨
       ∃ cloudProfileConfig i,
         decoded.1 = Some cloudProfileConfig ∧ infra = Some i ∧
         (resolved i cloudProfileConfig).2 = None ∧ credentials = None))) ∧
  (∀ e, Ptr.ComputeTerraformerChartValues CloudProfileConfigFromCluster
          FindKeyStoneURL infra credentials config cluster
        = Returned (None, Some e) ↔
     is_Some config ∧
     (decoded.2 = Some e ∨
      ∃ cloudProfileConfig i,
        decoded = (Some cloudProfileConfig, None) ∧ infra = Some i ∧
        (resolved i cloudProfileConfig).2 = Some e)) ∧
  ((∃ values, Ptr.ComputeTerraformerChartValues CloudProfileConfigFromCluster
                FindKeyStoneURL infra credentials config cluster
              = Returned (Some values, None)) ↔
     ∃ cloudProfileConfig i,
       is_Some config ∧ is_Some credentials ∧ infra = Some i ∧
       decoded = (Some cloudProfileConfig, None) ∧
       (resolved i cloudProfileConfig).2 = None) ∧
  (∀ i c cfg,
     infra = Some i → credentials = Some c → config = Some cfg →
     Ptr.ComputeTerraformerChartValues CloudProfileConfigFromCluster
       FindKeyStoneURL infra credentials config cluster
     = ComputeTerraformerChartValues CloudProfileConfigFromCluster
         FindKeyStoneURL i c cfg cluster).
Proof.
  intros decoded. subst decoded.
  split; [|split; [intros ?|split]];
    [ | | | intros i c cfg -> -> ->;
            apply Ptr_ComputeTerraformerChartValues_some ].
  all: unfold Ptr.ComputeTerraformerChartValues;
    destruct config as [cfg|], infra as [i|], credentials as [c|];
    destruct (CloudProfileConfigFromCluster cluster) as [[cpc|] [?e|]];
    cbn [fst snd];
    try destruct (FindKeyStoneURL _ _ _) as [url [?e|]] eqn:Hfind;
    try destruct (Networks_Router _) as [router|];
    (split; intros Hcase);
    repeat match goal with
    | H : _ ∨ _ |- _ => destruct H as [H|H]
    | H : ∃ _, _ |- _ => destruct H as [? H]
    | H : _ ∧ _ |- _ => destruct H as [? ?]
    | H : is_Some None |- _ => by destruct H
    end;
    simplify_eq;
    repeat match goal with
    | Hfind : FindKeyStoneURL _ _ _ = _, H : (FindKeyStoneURL _ _ _).2 = _ |- _ =>
        rewrite Hfind in H; cbn [snd] in H
    end;
    simplify_eq;
    try done;
    try (by left);
    try (by right; split; [|left]);
    try (by right; split; [|right; left]);
    try (right; split; [done|]; right; right; do 2 eexists;
         split; [reflexivity|]; split; [reflexivity|];
         by rewrite Hfind);
    try (split; [by eexists|]; first [by left | right; do 2 eexists;
         split; [reflexivity|]; split; [reflexivity|]; by rewrite Hfind]);
    try (do 2 eexists; split; [by eexists|]; split; [by eexists|];
         split; [reflexivity|]; split; [reflexivity|]; by rewrite Hfind);
    eauto.
Qed.

(** X2. The shape of the chart values does not depend on the inputs:
    whatever is returned has exactly the eight top-level keys [openstack],
    [create], [dnsServers], [sshPublicKey], [router], [clusterName],
    [networks] and [outputKeys], and the five nested maps have exactly the
    keys of the chart's schema. *)
Theorem chart_values_schema infra credentials config cluster values err :
  ComputeTerraformerChartValues CloudProfileConfigFromCluster
      FindKeyStoneURL infra credentials config cluster = Returned (Some values, err) →
  dom values = list_to_set
    [ "openstack"; "create"; "dnsServers"; "sshPublicKey"; "router";
      "clusterName"; "networks"; "outputKeys" ] ∧
  keysOf <$> values !! "openstack" = Some (list_to_set
    [ "authURL"; "domainName"; "tenantName"; "region"; "floatingPoolName" ]) ∧
  keysOf <$> values !! "create" = Some {[ "router" ]} ∧
  keysOf <$> values !! "router" = Some {[ "id" ]} ∧
  keysOf <$> values !! "networks" = Some {[ "workers" ]} ∧
  keysOf <$> values !! "outputKeys" = Some (list_to_set
    [ "routerID"; "networkID"; "keyName"; "securityGroupID";
      "securityGroupName"; "floatingNetworkID"; "subnetID" ]).
Proof.
  chart_values_cases; intros [= <- <-] || intros [=];
    repeat split; by vm_compute.
Qed.

(** X3. What the chart values carry over unchanged when both helpers
    succeed: the resolved endpoint as [openstack.authURL]; the domain and
    tenant names of the credentials; the region and the namespace of the
    infrastructure; the floating pool name of the configuration; the DNS
    servers of the cloud profile; and the SSH public key, as a string with
    the very bytes of the key. *)
Theorem chart_values_carry_over infra credentials config cluster
    cloudProfileConfig keyStoneURL :
  CloudProfileConfigFromCluster cluster = (Some cloudProfileConfig, None) →
  resolved infra cloudProfileConfig = (keyStoneURL, None) →
  ∃ values sshPublicKey,
    ComputeTerraformerChartValues CloudProfileConfigFromCluster
      FindKeyStoneURL infra credentials config cluster
      = Returned (Some values, None) ∧
    lookupPath ["openstack"; "authURL"] (VMap values)
      = Some (VString keyStoneURL) ∧
    lookupPath ["openstack"; "domainName"] (VMap values)
      = Some (VString (Credentials_DomainName credentials)) ∧
    lookupPath ["openstack"; "tenantName"] (VMap values)
      = Some (VString (Credentials_TenantName credentials)) ∧
    lookupPath ["openstack"; "region"] (VMap values)
      = Some (VString (InfrastructureSpec_Region (Infrastructure_Spec infra))) ∧
    lookupPath ["openstack"; "floatingPoolName"] (VMap values)
      = Some (VString (InfrastructureConfig_FloatingPoolName config)) ∧
    lookupPath ["clusterName"] (VMap values)
      = Some (VString (Infrastructure_Namespace infra)) ∧
    lookupPath ["dnsServers"] (VMap values)
      = Some (VStrings (CloudProfileConfig_DNSServers cloudProfileConfig)) ∧
    lookupPath ["sshPublicKey"] (VMap values) = Some (VString sshPublicKey) ∧
    String.list_byte_of_string sshPublicKey
      = InfrastructureSpec_SSHPublicKey (Infrastructure_Spec infra).
Proof.
  intros Hdecode Hfind. unfold ComputeTerraformerChartValues.
  rewrite Hdecode, Hfind.
  destruct (Networks_Router _);
    (do 2 eexists; split; [reflexivity|]);
    repeat (split; [reflexivity|]);
    apply String.list_byte_of_string_of_list_byte.
Qed.

End ChartValuesProperties.

(** ** Further properties of state extraction and status *)

Section StatusProperties.

Variable SchemeGroupVersion : string.

(** X4. Extraction reads back what was stored: when the batch fetch answers
    with the map that holds the seven fields of a state under the seven
    output keys, [ExtractTerraformState] returns that very state.  The seven
    keys are pairwise distinct, so no field is read from another's key. *)
Theorem extract_round_trip `{Terraformer T} (tf : T) config state :
  GetStateOutputVariables tf outputKeys = (stateOutputs state, None) →
  ExtractTerraformState tf config = (Some state, None) ∧ NoDup outputKeys.
Proof.
  intros Hfetch. split.
  - rewrite (ExtractTerraformState_ok _ _ _ Hfetch). by destruct state.
  - by apply (bool_decide_unpack _).
Qed.

(** X5. After a successful batch fetch, every field of the extracted state
    whose key is in the returned map holds the value stored under that key,
    unchanged. *)
Theorem extract_stored_values `{Terraformer T} (tf : T) config vars :
  GetStateOutputVariables tf outputKeys = (vars, None) →
  ∃ state,
    ExtractTerraformState tf config = (Some state, None) ∧
    (∀ v, vars !! "key_name" = Some v → SSHKeyName state = v) ∧
    (∀ v, vars !! "router_id" = Some v → RouterID state = v) ∧
    (∀ v, vars !! "network_id" = Some v → NetworkID state = v) ∧
    (∀ v, vars !! "subnet_id" = Some v → SubnetID state = v) ∧
    (∀ v, vars !! "floating_network_id" = Some v →
          FloatingNetworkID state = v) ∧
    (∀ v, vars !! "security_group_id" = Some v → SecurityGroupID state = v) ∧
    (∀ v, vars !! "security_group_name" = Some v →
          SecurityGroupName state = v).
Proof.
  intros Hfetch. eexists. split; [by apply ExtractTerraformState_ok|].
  cbn. unfold index. by repeat split; intros v ->.
Qed.

(** X6. The extracted state is decided by the seven requested entries of the
    returned map and by nothing else: after two successful batch fetches,
    the two results of [ExtractTerraformState] are equal exactly when the
    two maps read alike at each of the seven keys.  So entries under other
    keys are ignored, and a key that is missing reads like one that stores
    the empty string. *)
Theorem extract_reads_seven_keys `{Terraformer T1, Terraformer T2}
    (tf1 : T1) (tf2 : T2) config1 config2 vars1 vars2 :
  GetStateOutputVariables tf1 outputKeys = (vars1, None) →
  GetStateOutputVariables tf2 outputKeys = (vars2, None) →
  ExtractTerraformState tf1 config1 = ExtractTerraformState tf2 config2 ↔
  ∀ key, key ∈ outputKeys → index vars1 key = index vars2 key.
Proof.
  intros Hfetch1 Hfetch2.
  rewrite (ExtractTerraformState_ok _ _ _ Hfetch1),
          (ExtractTerraformState_ok _ _ _ Hfetch2).
  split.
  - intros [= ? ? ? ? ? ? ?] key Hkey. unfold outputKeys in Hkey.
    repeat (apply elem_of_cons in Hkey as [->|Hkey]; [assumption|]).
    by apply elem_of_nil in Hkey.
  - intros Hagree. do 2 f_equal.
    f_equal; apply Hagree; unfold outputKeys; repeat constructor.
Qed.

(** X7. [StatusFromTerraformState] loses nothing: two states with the same
    status are the same state. *)
Theorem status_from_state_injective (state1 state2 : TerraformState) :
  StatusFromTerraformState SchemeGroupVersion state1
    = StatusFromTerraformState SchemeGroupVersion state2 →
  state1 = state2.
Proof.
  destruct state1, state2. unfold StatusFromTerraformState. cbn.
  by intros [= -> -> -> -> -> -> ->].
Qed.

(** X8. The ways [ComputeStatus] can end, on a terraformer and a
    configuration that may be nil.  It panics exactly when [tf] is nil, or
    the batch fetch returns no error and [config] is nil; it returns an
    error and a nil status exactly when the fetch returns that error, also
    with a nil configuration; and it returns a status exactly when neither
    is nil and the fetch returns no error.  So with a terraformer and a
    configuration at hand it never panics: the state it reads through is
    never nil.  On arguments that are not nil it is the function on what
    they hold. *)
Theorem compute_status_outcomes `{Terraformer T}
    (tf : option T) (config : option InfrastructureConfig) :
  (Ptr.ComputeStatus SchemeGroupVersion tf config = Panicked ↔
     tf = None ∨
     ∃ t, tf = Some t ∧ (GetStateOutputVariables t outputKeys).2 = None ∧
          config = None) ∧
  (∀ e, Ptr.ComputeStatus SchemeGroupVersion tf config
        = Returned (None, Some e) ↔
        ∃ t, tf = Some t ∧ (GetStateOutputVariables t outputKeys).2 = Some e) ∧
  ((∃ status, Ptr.ComputeStatus SchemeGroupVersion tf config
              = Returned (Some status, None)) ↔
     ∃ t, tf = Some t ∧ is_Some config ∧
          (GetStateOutputVariables t outputKeys).2 = None) ∧
  (∀ t c, tf = Some t → config = Some c →
     Ptr.ComputeStatus SchemeGroupVersion tf config
     = ComputeStatus SchemeGroupVersion t c ∧
     ComputeStatus SchemeGroupVersion t c ≠ Panicked).
Proof.
  unfold Ptr.ComputeStatus, Ptr.ExtractTerraformState, ComputeStatus,
    ExtractTerraformState.
  destruct tf as [t|]; cycle 1.
  { split; [split; [by left|done]|].
    split; [intros e; split; [done|by intros (? & [=] & _)]|].
    split; [|by intros ?? [=]].
    split; [by intros [? [=]] | by intros (? & [=] & _)]. }
  destruct (GetStateOutputVariables t outputKeys) as [vars [e|]] eqn:Hfetch;
    destruct config as [c|].
  all: split; [|split; [intros ?|split]].
  all: try (intros ?? [= <-] [= <-]; rewrite Hfetch; by split).
  all: split; intros Hcase.
  all: repeat match goal with
       | H : _ ∨ _ |- _ => destruct H as [H|H]
       | H : ∃ _, _ |- _ => destruct H as [? H]
       | H : _ ∧ _ |- _ => destruct H as [? ?]
       | H : is_Some None |- _ => by destruct H
       end;
       simplify_eq;
       repeat match goal with
       | H : (GetStateOutputVariables _ _).2 = _ |- _ =>
           rewrite Hfetch in H; cbn [snd] in H
       end;
       simplify_eq; try done.
  all: try (right; eexists; split; [reflexivity|]; by rewrite Hfetch).
  all: try (eexists; split; [reflexivity|]; by rewrite Hfetch).
  all: try (eexists; split; [reflexivity|]; split; [by eexists|];
            by rewrite Hfetch).
  all: eauto.
Qed.

(** X9. End to end, from the answer of the batch fetch to the status: after
    a successful fetch [ComputeStatus] returns the status whose network,
    router, subnet, floating pool, security group and key name are the
    entries of the returned map under [network_id], [router_id],
    [subnet_id], [floating_network_id], [security_group_id],
    [security_group_name] and [key_name] (the empty string where the map has
    none), with the floating pool name of the configuration. *)
Theorem compute_status_end_to_end `{Terraformer T} (tf : T) config vars :
  GetStateOutputVariables tf outputKeys = (vars, None) →
  ComputeStatus SchemeGroupVersion tf config =
    Returned
      (Some
         {| InfrastructureStatus_TypeMeta :=
              {| TypeMeta_APIVersion := SchemeGroupVersion;
                 TypeMeta_Kind := "InfrastructureStatus" |};
            InfrastructureStatus_Networks :=
              {| NetworkStatus_ID := index vars "network_id";
                 NetworkStatus_FloatingPool :=
                   {| FloatingPoolStatus_ID := index vars "floating_network_id";
                      FloatingPoolStatus_Name :=
                        InfrastructureConfig_FloatingPoolName config |};
                 NetworkStatus_Router :=
                   {| RouterStatus_ID := index vars "router_id" |};
                 NetworkStatus_Subnets :=
                   [ {| Subnet_Purpose := "nodes";
                        Subnet_ID := index vars "subnet_id" |} ] |};
            InfrastructureStatus_SecurityGroups :=
              [ {| SecurityGroup_Purpose := "nodes";
                   SecurityGroup_ID := index vars "security_group_id";
                   SecurityGroup_Name := index vars "security_group_name" |} ];
            InfrastructureStatus_Node :=
              {| NodeStatus_KeyName := index vars "key_name" |} |},
       None).
Proof.
  intros Hfetch. unfold ComputeStatus.
  by rewrite (ExtractTerraformState_ok _ _ _ Hfetch).
Qed.

(** X10. The status of [ComputeStatus] is the status of
    [StatusFromTerraformState] with the floating pool name filled in and
    nothing else touched: resetting the name to the empty string gives back
    the status built from the state, which itself has an empty floating pool
    name; the two are equal exactly when the configuration has no floating
    pool name. *)
Theorem compute_status_fills_pool_name `{Terraformer T} (tf : T) config state :
  ExtractTerraformState tf config = (Some state, None) →
  ∃ status,
    ComputeStatus SchemeGroupVersion tf config = Returned (Some status, None) ∧
    setFloatingPoolName status ""
      = StatusFromTerraformState SchemeGroupVersion state ∧
    FloatingPoolStatus_Name
      (NetworkStatus_FloatingPool
         (InfrastructureStatus_Networks
            (StatusFromTerraformState SchemeGroupVersion state))) = "" ∧
    (status = StatusFromTerraformState SchemeGroupVersion state ↔
     InfrastructureConfig_FloatingPoolName config = "").
Proof.
  intros Hstate. unfold ComputeStatus. rewrite Hstate.
  eexists. split; [reflexivity|]. split; [reflexivity|]. split; [reflexivity|].
  unfold StatusFromTerraformState, setFloatingPoolName. cbn. split.
  - by intros [= ->].
  - by intros ->.
Qed.

(** X11. Of its configuration [ComputeStatus] reads the floating pool name
    and nothing else: two configurations with the same floating pool name
    give the same outcome, whatever their networks are; and when the fetch
    succeeds, two configurations that give the same outcome have the same
    floating pool name. *)
Theorem compute_status_reads_pool_name `{Terraformer T} (tf : T)
    (config1 config2 : InfrastructureConfig) :
  (InfrastructureConfig_FloatingPoolName config1
     = InfrastructureConfig_FloatingPoolName config2 →
   ComputeStatus SchemeGroupVersion tf config1
     = ComputeStatus SchemeGroupVersion tf config2) ∧
  ((GetStateOutputVariables tf outputKeys).2 = None →
   ComputeStatus SchemeGroupVersion tf config1
     = ComputeStatus SchemeGroupVersion tf config2 →
   InfrastructureConfig_FloatingPoolName config1
     = InfrastructureConfig_FloatingPoolName config2).
Proof.
  unfold ComputeStatus, ExtractTerraformState.
  destruct (GetStateOutputVariables tf outputKeys) as [vars [e|]]; cbn [snd].
  - split; [done|]. by intros [=].
  - split; [by intros ->|]. intros _ Heq. by injection Heq.
Qed.

End StatusProperties.

(** ** Properties of chart rendering *)

Section RenderingProperties.

Variable filepath_Join : list string → string.
Context {Cluster : Type}.
Variable CloudProfileConfigFromCluster : Cluster → result CloudProfileConfig.
Variable FindKeyStoneURL :
  list KeyStoneURL → string → string → string * option error.
Context `{ChartRenderer R C, RenderedChart C}.

(** The chart of the one [Render] call: [openstack-infra] below the
    internal charts. *)
Local Abbreviation chartPath :=
  (filepath_Join
     [ filepath_Join
         [ filepath_Join ["controllers"; "provider-openstack"; "charts"];
           "internal" ];
       "openstack-infra" ]).

(** Chart values are never returned nil without an error. *)
Lemma chartValues_nil_values infra credentials config cluster :
  ComputeTerraformerChartValues CloudProfileConfigFromCluster
      FindKeyStoneURL infra credentials config cluster ≠ Returned (None, None).
Proof.
  unfold ComputeTerraformerChartValues.
  destruct (Networks_Router _);
    destruct (CloudProfileConfigFromCluster cluster) as [[cpc|] [e|]];
    try done;
    by destruct (FindKeyStoneURL _ _ _) as [url [e|]].
Qed.

(** X12. A failure of the chart values ends [RenderTerraformerChart] before
    it renders anything: with any renderer, an error of
    [ComputeTerraformerChartValues] is returned as it is with nil files,
    and a panic there is a panic here. *)
Theorem render_stops_at_values_failure (renderer : R)
    infra credentials config cluster :
  (∀ values e,
     ComputeTerraformerChartValues CloudProfileConfigFromCluster
      FindKeyStoneURL infra credentials config cluster = Returned (values, Some e) →
     RenderTerraformerChart filepath_Join CloudProfileConfigFromCluster
      FindKeyStoneURL renderer infra credentials config cluster
       = Returned (None, Some e)) ∧
  (ComputeTerraformerChartValues CloudProfileConfigFromCluster
      FindKeyStoneURL infra credentials config cluster = Panicked →
   RenderTerraformerChart filepath_Join CloudProfileConfigFromCluster
      FindKeyStoneURL renderer infra credentials config cluster = Panicked).
Proof.
  unfold RenderTerraformerChart. split.
  - by intros values e ->.
  - by intros ->.
Qed.

(** X13. What the renderer is asked: once the chart values are there, the
    outcome of [RenderTerraformerChart] hangs on the renderer through one
    call only, for the chart [openstack-infra] below the internal charts
    path, with release name [openstack-infra], the namespace of the
    infrastructure and the computed values, which are not nil.  Two
    renderers that answer this call alike give the same outcome. *)
Theorem render_asks_renderer_once (renderer1 renderer2 : R)
    infra credentials config cluster values :
  ComputeTerraformerChartValues CloudProfileConfigFromCluster
      FindKeyStoneURL infra credentials config cluster = Returned (values, None) →
  is_Some values ∧
  (Render renderer1 chartPath "openstack-infra"
          (Infrastructure_Namespace infra) values
   = Render renderer2 chartPath "openstack-infra"
            (Infrastructure_Namespace infra) values →
   RenderTerraformerChart filepath_Join CloudProfileConfigFromCluster
      FindKeyStoneURL renderer1 infra credentials config cluster
   = RenderTerraformerChart filepath_Join CloudProfileConfigFromCluster
      FindKeyStoneURL renderer2 infra credentials config cluster).
Proof.
  intros Hvalues. split.
  - destruct values; [done|].
    by destruct (chartValues_nil_values infra credentials config cluster).
  - unfold RenderTerraformerChart, InternalChartsPath, ChartsPath.
    rewrite Hvalues. by intros ->.
Qed.

(** X14. What comes back from rendering, once the chart values are there: if
    the renderer fails, its error with nil files; otherwise the files
    [main.tf] and [variables.tf] of the release as strings and the file
    [terraform.tfvars] as bytes, which read back as that file's content. *)
Theorem render_returns_release_files (renderer : R)
    infra credentials config cluster values release renderErr :
  ComputeTerraformerChartValues CloudProfileConfigFromCluster
      FindKeyStoneURL infra credentials config cluster = Returned (values, None) →
  Render renderer chartPath "openstack-infra"
         (Infrastructure_Namespace infra) values = (release, renderErr) →
  match renderErr with
  | Some e =>
      RenderTerraformerChart filepath_Join CloudProfileConfigFromCluster
      FindKeyStoneURL renderer infra credentials config cluster
        = Returned (None, Some e)
  | None =>
      ∃ files,
        RenderTerraformerChart filepath_Join CloudProfileConfigFromCluster
      FindKeyStoneURL renderer infra credentials config cluster
          = Returned (Some files, None) ∧
        Main files = FileContent release "main.tf" ∧
        Variables files = FileContent release "variables.tf" ∧
        String.string_of_list_byte (TFVars files)
          = FileContent release "terraform.tfvars"
  end.
Proof.
  intros Hvalues Hrender.
  unfold RenderTerraformerChart, InternalChartsPath, ChartsPath.
  rewrite Hvalues, Hrender. destruct renderErr as [e|]; [done|].
  eexists. split; [reflexivity|]. cbn [Main Variables TFVars].
  by rewrite String.string_of_list_byte_of_string.
Qed.

(** X15. [RenderTerraformerChart] is all or nothing: whatever it returns is
    either files and no error or nil files and an error; and it returns
    files only when the chart values were computed and the renderer, asked
    for the chart with these values, reported no error. *)
Theorem render_all_or_nothing (renderer : R)
    infra credentials config cluster files err :
  RenderTerraformerChart filepath_Join CloudProfileConfigFromCluster
    FindKeyStoneURL renderer infra credentials config cluster
  = Returned (files, err) →
  ((is_Some files ∧ err = None) ∨ (files = None ∧ is_Some err)) ∧
  (is_Some files →
   ∃ values release,
     ComputeTerraformerChartValues CloudProfileConfigFromCluster
       FindKeyStoneURL infra credentials config cluster
     = Returned (Some values, None) ∧
     Render renderer chartPath "openstack-infra"
            (Infrastructure_Namespace infra) (Some values)
     = (release, None)).
Proof.
  unfold RenderTerraformerChart, InternalChartsPath, ChartsPath.
  pose proof (chartValues_nil_values infra credentials config cluster)
    as Hvalues.
  destruct (ComputeTerraformerChartValues _ _ _ _ _ _)
    as [[values [e|]]|]; [| |done].
  - intros [= <- <-]. split; [eauto|]. by intros [? [=]].
  - destruct values as [values|]; [|done].
    destruct (Render _ _ _ _ _) as [release [e|]] eqn:Hrender;
      intros [= <- <-].
    + split; [eauto|]. by intros [? [=]].
    + split; [eauto|]. intros _. eauto.
Qed.

End RenderingProperties.

(** ** Properties of the provider configuration decoders *)

Section DecoderProperties.

Context {Decoder Path ControlPlaneConfig : Type}.
Context `{!validator.Decodable Decoder ControlPlaneConfig,
          !validator.Decodable Decoder InfrastructureConfig,
          !validator.Decodable Decoder CloudProfileConfig}.
Variable zeroControlPlaneConfig : ControlPlaneConfig.

(** A decoder's result [r] against the answer [d] of [util.Decode]: a
    configuration or an error and not both, the error handed on, and on
    success the object that was filled. *)
Local Abbreviation handsOn r d :=
  (((is_Some r.1 ∧ r.2 = None) ∨ (r.1 = None ∧ is_Some r.2)) ∧
   r.2 = d.2 ∧ (d.2 = None → r.1 = Some d.1)).

(** X16. Whatever the three decoders of package [validator] return is a
    configuration or an error, never both and never neither: when
    [util.Decode] fails, its error comes back with a nil configuration,
    whatever it has written into the object by then; when it succeeds, the
    object that it filled, starting from the zero value, comes back with no
    error.  The field path plays no part: with any two paths the result is
    the same. *)
Theorem decoders_all_or_nothing (decoder : Decoder)
    (raw : validator.ProviderConfig) (fldPath fldPath' : Path) :
  (handsOn (validator.decodeControlPlaneConfig zeroControlPlaneConfig
              decoder raw fldPath)
           (validator.Decode decoder (validator.Raw raw)
              zeroControlPlaneConfig) ∧
   validator.decodeControlPlaneConfig zeroControlPlaneConfig
     decoder raw fldPath
   = validator.decodeControlPlaneConfig zeroControlPlaneConfig
       decoder raw fldPath') ∧
  (handsOn (validator.decodeInfrastructureConfig decoder raw fldPath)
           (validator.Decode decoder (validator.Raw raw)
              validator.zeroInfrastructureConfig) ∧
   validator.decodeInfrastructureConfig decoder raw fldPath
   = validator.decodeInfrastructureConfig decoder raw fldPath') ∧
  (handsOn (validator.decodeCloudProfileConfig decoder raw fldPath)
           (validator.Decode decoder (validator.Raw raw)
              validator.zeroCloudProfileConfig) ∧
   validator.decodeCloudProfileConfig decoder raw fldPath
   = validator.decodeCloudProfileConfig decoder raw fldPath').
Proof.
  unfold validator.decodeControlPlaneConfig,
    validator.decodeInfrastructureConfig, validator.decodeCloudProfileConfig.
  repeat apply conj; try reflexivity;
    destruct (validator.Decode _ _ _) as [decoded [e|]]; cbn [fst snd];
    try done; eauto.
Qed.

End DecoderProperties.

(** ** The further properties at concrete inputs *)

(** The schema of the values computed for the example inputs. *)
Lemma chart_values_schema_witness :
  exampleChartValues (exampleConfig None "" "10.0.0.0/24")
                     (Some exampleProfile, None)
  = Returned (Some (exampleValues true DefaultRouterID "10.0.0.0/24"), None)
  ∧ dom (exampleValues true DefaultRouterID "10.0.0.0/24")
    = list_to_set
        [ "openstack"; "create"; "dnsServers"; "sshPublicKey"; "router";
          "clusterName"; "networks"; "outputKeys" ].
Proof.
  assert (exampleChartValues (exampleConfig None "" "10.0.0.0/24")
                             (Some exampleProfile, None)
          = Returned (Some (exampleValues true DefaultRouterID "10.0.0.0/24"),
                      None)) as Hret by reflexivity.
  split; [exact Hret|].
  exact (proj1 (chart_values_schema _ _ _ _ _ _ _ _ Hret)).
Defined.

(** The endpoint and the namespace in the values for the example inputs. *)
Lemma chart_values_carry_over_witness :
  decodeCluster (Some exampleProfile, None) = (Some exampleProfile, None)
  ∧ helper.FindKeyStoneURL
      (CloudProfileConfig_KeyStoneURLs exampleProfile)
      (CloudProfileConfig_KeyStoneURL exampleProfile) "eu"
    = ("https://eu.example", None)
  ∧ ∃ values,
      exampleChartValues (exampleConfig None "" "") (Some exampleProfile, None)
        = Returned (Some values, None) ∧
      lookupPath ["openstack"; "authURL"] (VMap values)
        = Some (VString "https://eu.example") ∧
      lookupPath ["clusterName"] (VMap values) = Some (VString "shoot-1").
Proof.
  split; [reflexivity|]. split; [reflexivity|].
  destruct (chart_values_carry_over decodeCluster helper.FindKeyStoneURL
              exampleInfra exampleCredentials (exampleConfig None "" "")
              (Some exampleProfile, None) exampleProfile "https://eu.example"
              eq_refl eq_refl)
    as (values & key & Hret & Hurl & _ & _ & _ & _ & Hname & _).
  exists values. split; [exact Hret|]. split; [exact Hurl | exact Hname].
Defined.

(** The example state, stored and read back. *)
Lemma extract_round_trip_witness :
  GetStateOutputVariables (Store (stateOutputs exampleState)) outputKeys
    = (stateOutputs exampleState, None)
  ∧ ExtractTerraformState (Store (stateOutputs exampleState))
      (exampleConfig None "" "")
    = (Some exampleState, None).
Proof.
  assert (GetStateOutputVariables (Store (stateOutputs exampleState)) outputKeys
          = (stateOutputs exampleState, None)) as Hfetch by reflexivity.
  split; [exact Hfetch|].
  exact (proj1 (extract_round_trip (Store (stateOutputs exampleState))
                  (exampleConfig None "" "") exampleState Hfetch)).
Defined.

(** The router of the example outputs. *)
Lemma extract_stored_values_witness :
  GetStateOutputVariables (Store exampleOutputs) outputKeys
    = (stateOutputs exampleState, None)
  ∧ ∃ state,
      ExtractTerraformState (Store exampleOutputs) (exampleConfig None "" "")
        = (Some state, None) ∧
      RouterID state = "r-1".
Proof.
  assert (GetStateOutputVariables (Store exampleOutputs) outputKeys
          = (stateOutputs exampleState, None)) as Hfetch by reflexivity.
  split; [exact Hfetch|].
  destruct (extract_stored_values (Store exampleOutputs)
              (exampleConfig None "" "") _ Hfetch)
    as (state & Hstate & _ & Hrouter & _).
  exists state. split; [exact Hstate|]. by apply Hrouter.
Defined.

(** A store without six of the outputs against one that holds them as empty
    strings: the two answers differ, and read alike at the seven keys. *)
Lemma sparse_fetch :
  GetStateOutputVariables (Store sparseOutputs) outputKeys
  = (sparseOutputs, None).
Proof. reflexivity. Qed.

Lemma empty_strings_fetch :
  GetStateOutputVariables (Store (stateOutputs sparseState)) outputKeys
  = (stateOutputs sparseState, None).
Proof. reflexivity. Qed.

Lemma sparse_outputs_differ : sparseOutputs ≠ stateOutputs sparseState.
Proof.
  intros Heq. apply (f_equal (λ m, m !! "router_id")) in Heq.
  vm_compute in Heq. discriminate Heq.
Qed.

Lemma sparse_outputs_read_alike key :
  key ∈ outputKeys →
  index sparseOutputs key = index (stateOutputs sparseState) key.
Proof.
  intros Hkey. unfold outputKeys in Hkey.
  repeat (apply elem_of_cons in Hkey as [->|Hkey]; [reflexivity|]).
  by apply elem_of_nil in Hkey.
Qed.

Lemma extract_reads_seven_keys_witness :
  GetStateOutputVariables (Store sparseOutputs) outputKeys
    = (sparseOutputs, None)
  ∧ GetStateOutputVariables (Store (stateOutputs sparseState)) outputKeys
    = (stateOutputs sparseState, None)
  ∧ sparseOutputs ≠ stateOutputs sparseState
  ∧ ExtractTerraformState (Store sparseOutputs) (exampleConfig None "" "")
    = ExtractTerraformState (Store (stateOutputs sparseState))
        (exampleConfig None "10.0.0.0/24" "").
Proof.
  split; [exact sparse_fetch|]. split; [exact empty_strings_fetch|].
  split; [exact sparse_outputs_differ|].
  exact (proj2 (extract_reads_seven_keys _ _ _ _ _ _
                  sparse_fetch empty_strings_fetch)
               sparse_outputs_read_alike).
Defined.

(** The example state against itself. *)
Lemma status_from_state_injective_witness :
  StatusFromTerraformState exampleVersion exampleState
    = StatusFromTerraformState exampleVersion exampleState
  ∧ exampleState = exampleState.
Proof.
  split; [reflexivity|].
  by apply (status_from_state_injective exampleVersion).
Defined.

(** The status computed from the example outputs. *)
Lemma compute_status_end_to_end_witness :
  GetStateOutputVariables (Store exampleOutputs) outputKeys
    = (stateOutputs exampleState, None)
  ∧ ComputeStatus exampleVersion (Store exampleOutputs)
      (exampleConfig None "" "")
    = Returned (Some exampleStatus, None).
Proof.
  assert (GetStateOutputVariables (Store exampleOutputs) outputKeys
          = (stateOutputs exampleState, None)) as Hfetch by reflexivity.
  split; [exact Hfetch|].
  exact (compute_status_end_to_end exampleVersion (Store exampleOutputs)
           (exampleConfig None "" "") _ Hfetch).
Defined.

(** The status computed from the sparse store, with the name taken out
    again. *)
Lemma compute_status_fills_pool_name_witness :
  ExtractTerraformState (Store sparseOutputs) (exampleConfig None "" "")
    = (Some sparseState, None)
  ∧ ∃ status,
      ComputeStatus exampleVersion (Store sparseOutputs)
        (exampleConfig None "" "")
        = Returned (Some status, None) ∧
      setFloatingPoolName status ""
        = StatusFromTerraformState exampleVersion sparseState.
Proof.
  assert (ExtractTerraformState (Store sparseOutputs)
            (exampleConfig None "" "")
          = (Some sparseState, None)) as Hstate by reflexivity.
  split; [exact Hstate|].
  destruct (compute_status_fills_pool_name exampleVersion
              (Store sparseOutputs) (exampleConfig None "" "") sparseState
              Hstate)
    as (status & Hstatus & Hreset & _).
  exists status. split; [exact Hstatus | exact Hreset].
Defined.

(** A renderer for every namespace against one for [shoot-1] only. *)
Lemma render_asks_renderer_once_witness :
  exampleChartValues (exampleConfig None "" "") (Some exampleProfile, None)
    = Returned (Some (exampleValues true DefaultRouterID ""), None)
  ∧ Render Templates exampleChartPath "openstack-infra" "shoot-1"
      (Some (exampleValues true DefaultRouterID ""))
    = Render (TemplatesIn "shoot-1") exampleChartPath "openstack-infra"
        "shoot-1" (Some (exampleValues true DefaultRouterID ""))
  ∧ exampleRender Templates (exampleConfig None "" "")
      (Some exampleProfile, None)
    = exampleRender (TemplatesIn "shoot-1") (exampleConfig None "" "")
        (Some exampleProfile, None).
Proof.
  assert (exampleChartValues (exampleConfig None "" "")
            (Some exampleProfile, None)
          = Returned (Some (exampleValues true DefaultRouterID ""), None))
    as Hvalues by reflexivity.
  split; [exact Hvalues|]. split; [reflexivity|].
  apply (proj2 (render_asks_renderer_once unixJoin decodeCluster
                  helper.FindKeyStoneURL Templates (TemplatesIn "shoot-1")
                  _ _ _ _ _ Hvalues)).
  reflexivity.
Defined.

(** The files rendered for the example inputs. *)
Lemma render_returns_release_files_witness :
  exampleChartValues (exampleConfig None "" "") (Some exampleProfile, None)
    = Returned (Some (exampleValues true DefaultRouterID ""), None)
  ∧ Render Templates exampleChartPath "openstack-infra" "shoot-1"
      (Some (exampleValues true DefaultRouterID ""))
    = ([ ("main.tf", exampleChartPath);
         ("variables.tf", "openstack-infra");
         ("terraform.tfvars", "shoot-1") ], None)
  ∧ ∃ files,
      exampleRender Templates (exampleConfig None "" "")
        (Some exampleProfile, None)
        = Returned (Some files, None) ∧
      Main files = exampleChartPath ∧
      Variables files = "openstack-infra" ∧
      String.string_of_list_byte (TFVars files) = "shoot-1".
Proof.
  assert (exampleChartValues (exampleConfig None "" "")
            (Some exampleProfile, None)
          = Returned (Some (exampleValues true DefaultRouterID ""), None))
    as Hvalues by reflexivity.
  split; [exact Hvalues|]. split; [reflexivity|].
  exact (render_returns_release_files unixJoin decodeCluster
           helper.FindKeyStoneURL Templates _ _ _ _ _ _ None Hvalues eq_refl).
Defined.

(** Nil pointers and failing helpers: a nil configuration panics, a decode
    error is returned with everything else nil, and nil credentials panic
    once both helpers have succeeded. *)
Lemma chart_values_outcomes_witness :
  Ptr.ComputeTerraformerChartValues decodeCluster helper.FindKeyStoneURL
    (Some exampleInfra) (Some exampleCredentials) None
    (Some exampleProfile, None) = Panicked
  ∧ Ptr.ComputeTerraformerChartValues decodeCluster helper.FindKeyStoneURL
      None None (Some (exampleConfig None "" "")) (None, Some "decode failed")
    = Returned (None, Some "decode failed")
  ∧ Ptr.ComputeTerraformerChartValues decodeCluster helper.FindKeyStoneURL
      (Some exampleInfra) None (Some (exampleConfig None "" ""))
      (Some exampleProfile, None) = Panicked.
Proof.
  split; [|split].
  - pose proof (chart_values_outcomes decodeCluster helper.FindKeyStoneURL
                  (Some exampleInfra) (Some exampleCredentials) None
                  (Some exampleProfile, None)) as Hends.
    cbv zeta in Hends. destruct Hends as (Hpanic & _).
    apply Hpanic. left. reflexivity.
  - pose proof (chart_values_outcomes decodeCluster helper.FindKeyStoneURL
                  None None (Some (exampleConfig None "" ""))
                  (None, Some "decode failed")) as Hends.
    cbv zeta in Hends. destruct Hends as (_ & Herror & _).
    apply Herror. split; [by eexists|]. left. reflexivity.
  - pose proof (chart_values_outcomes decodeCluster helper.FindKeyStoneURL
                  (Some exampleInfra) None (Some (exampleConfig None "" ""))
                  (Some exampleProfile, None)) as Hends.
    cbv zeta in Hends. destruct Hends as (Hpanic & _).
    apply Hpanic. right. split; [reflexivity|]. right. right.
    exists exampleProfile, exampleInfra.
    repeat split; reflexivity.
Defined.

(** A nil configuration after a good fetch panics, after a failed fetch it
    does not; a nil terraformer panics. *)
Lemma compute_status_outcomes_witness :
  Ptr.ComputeStatus exampleVersion (Some (Store sparseOutputs)) None = Panicked
  ∧ Ptr.ComputeStatus exampleVersion (Some (Unreachable "no backend")) None
    = Returned (None, Some "no backend")
  ∧ Ptr.ComputeStatus exampleVersion (None : option backend)
      (Some (exampleConfig None "" "")) = Panicked
  ∧ Ptr.ComputeStatus exampleVersion (Some (Store exampleOutputs))
      (Some (exampleConfig None "" ""))
    = Returned (Some exampleStatus, None).
Proof.
  split; [|split; [|split]].
  - apply (compute_status_outcomes exampleVersion
             (Some (Store sparseOutputs)) None).
    right. exists (Store sparseOutputs). repeat split; reflexivity.
  - apply (compute_status_outcomes exampleVersion
             (Some (Unreachable "no backend")) None).
    exists (Unreachable "no backend"). split; reflexivity.
  - apply (compute_status_outcomes exampleVersion
             (None : option backend) (Some (exampleConfig None "" ""))).
    left. reflexivity.
  - destruct (compute_status_outcomes exampleVersion
                (Some (Store exampleOutputs))
                (Some (exampleConfig None "" "")))
      as (_ & _ & _ & Hsome).
    destruct (Hsome (Store exampleOutputs) (exampleConfig None "" "")
                eq_refl eq_refl) as [-> _].
    reflexivity.
Defined.

(** The files rendered for the example inputs, and where they come from. *)
Lemma render_all_or_nothing_witness :
  exampleRender Templates (exampleConfig None "" "") (Some exampleProfile, None)
    = Returned (Some exampleFiles, None)
  ∧ ∃ values release,
      exampleChartValues (exampleConfig None "" "") (Some exampleProfile, None)
        = Returned (Some values, None) ∧
      Render Templates exampleChartPath "openstack-infra" "shoot-1"
             (Some values)
        = (release, None).
Proof.
  assert (exampleRender Templates (exampleConfig None "" "")
            (Some exampleProfile, None)
          = Returned (Some exampleFiles, None)) as Hfiles by reflexivity.
  split; [exact Hfiles|].
  apply (render_all_or_nothing unixJoin decodeCluster helper.FindKeyStoneURL
           Templates _ _ _ _ _ _ Hfiles).
  by eexists.
Defined.

(** A name that [NameDecoder] takes and one that it rejects after writing
    it. *)
Lemma decoders_all_or_nothing_witness :
  validator.decodeInfrastructureConfig NameDecoder
    (namedProviderConfig "ext-net") tt
    = (Some (namedInfrastructureConfig "ext-net"), None)
  ∧ validator.Decode NameDecoder
      (validator.Raw (namedProviderConfig "much-too-long"))
      validator.zeroInfrastructureConfig
    = (namedInfrastructureConfig "much-too-long", Some "name too long")
  ∧ validator.decodeInfrastructureConfig NameDecoder
      (namedProviderConfig "much-too-long") tt
    = (None, Some "name too long").
Proof.
  split; [|split; [reflexivity|]].
  - destruct (decoders_all_or_nothing (ControlPlaneConfig := string) ""
                NameDecoder (namedProviderConfig "ext-net") tt tt)
      as (_ & ((_ & Herror & Hfilled) & _) & _).
    rewrite (surjective_pairing (validator.decodeInfrastructureConfig _ _ _)).
    rewrite Herror, (Hfilled eq_refl). reflexivity.
  - destruct (decoders_all_or_nothing (ControlPlaneConfig := string) ""
                NameDecoder (namedProviderConfig "much-too-long") tt tt)
      as (_ & ((Hone & Herror & _) & _) & _).
    rewrite (surjective_pairing (validator.decodeInfrastructureConfig _ _ _)).
    rewrite Herror in Hone |- *.
    destruct Hone as [[_ [=]] | [-> _]]. reflexivity.
Defined.
